(** * PaintApp: the drawing surface of [src/App.tsx]

    A shallow embedding of the state and the event handlers of the [App]
    component, and the properties of its geometry clamping, selection,
    dragging and persistence.

    Modelling conventions.
    - A JavaScript [number] holding a pointer coordinate or a shape
      dimension is an integer of [Z] (CSS pixels); arithmetic is exact.
    - The React state of [App] is the record [AppState]; a handler is a
      function from the state of the render it closes over to the state
      after its queued updates have been applied.
    - [e.clientX], [e.clientY], [e.nativeEvent.offsetX/Y] and the test
      [e.target !== canvasRef.current] are the fields of [MouseEvent];
      [canvasRef.current.getBoundingClientRect()] is a [DOMRect];
      [Date.now()] is a parameter of the handler that reads it. *)

From stdpp Require Import base strings list gmap pretty.
From Stdlib Require Import ZArith Lia.

Local Open Scope Z_scope.

(** ** Data model *)

Inductive ShapeType := rectangle | circle | line.
Inductive LineStyle := solid | dashed.

Global Instance ShapeType_eq_dec : EqDecision ShapeType.
Proof. solve_decision. Defined.
Global Instance LineStyle_eq_dec : EqDecision LineStyle.
Proof. solve_decision. Defined.

(** [interface DrawingElement]; the optional [x2?], [y2?] are [None] when
    the property is absent ([undefined]). *)
Module El.
Record DrawingElement := mk {
  id : string;
  type : ShapeType;
  x : Z;
  y : Z;
  width : Z;
  height : Z;
  color : string;
  background : string;
  lineStyle : LineStyle;
  lineWidth : Z;
  selected : bool;
  x2 : option Z;
  y2 : option Z;
}.

(** [{ ...el, x2, y2 }] *)
Definition with_far (el : DrawingElement) (nx2 ny2 : Z) : DrawingElement :=
  mk (id el) (type el) (x el) (y el) (width el) (height el) (color el)
     (background el) (lineStyle el) (lineWidth el) (selected el)
     (Some nx2) (Some ny2).

(** [{ ...el, width, height }] *)
Definition with_extent (el : DrawingElement) (w h : Z) : DrawingElement :=
  mk (id el) (type el) (x el) (y el) w h (color el)
     (background el) (lineStyle el) (lineWidth el) (selected el)
     (x2 el) (y2 el).

(** [{ ...el, x: newX, y: newY }] *)
Definition with_pos (el : DrawingElement) (nx ny : Z) : DrawingElement :=
  mk (id el) (type el) nx ny (width el) (height el) (color el)
     (background el) (lineStyle el) (lineWidth el) (selected el)
     (x2 el) (y2 el).

(** [{ ...el, selected: b }] *)
Definition with_selected (el : DrawingElement) (b : bool) : DrawingElement :=
  mk (id el) (type el) (x el) (y el) (width el) (height el) (color el)
     (background el) (lineStyle el) (lineWidth el) b
     (x2 el) (y2 el).
End El.

Abbreviation DrawingElement := El.DrawingElement.

(** [defaultAppearance] and the [appearance] state. *)
Record Appearance := {
  a_color : string;
  a_background : string;
  a_lineStyle : LineStyle;
  a_lineWidth : Z;
}.

Definition defaultAppearance : Appearance :=
  {| a_color := "#000000"; a_background := "#ffffff";
     a_lineStyle := solid; a_lineWidth := 2 |}.

(** The [useState] cells of [App]. [dragId] is [string | null]. *)
Record AppState := {
  elements : list DrawingElement;
  currentShape : ShapeType;
  drawing : bool;
  appearance : Appearance;
  dragId : option string;
  offset : Z * Z;
}.

Definition initialState : AppState :=
  {| elements := []; currentShape := rectangle; drawing := false;
     appearance := defaultAppearance; dragId := None; offset := (0, 0) |}.

Definition set_elements (s : AppState) (els : list DrawingElement) : AppState :=
  {| elements := els; currentShape := currentShape s; drawing := drawing s;
     appearance := appearance s; dragId := dragId s; offset := offset s |}.

Definition set_drawing (s : AppState) (b : bool) : AppState :=
  {| elements := elements s; currentShape := currentShape s; drawing := b;
     appearance := appearance s; dragId := dragId s; offset := offset s |}.

Definition set_dragId (s : AppState) (d : option string) : AppState :=
  {| elements := elements s; currentShape := currentShape s;
     drawing := drawing s; appearance := appearance s; dragId := d;
     offset := offset s |}.

Definition set_offset (s : AppState) (o : Z * Z) : AppState :=
  {| elements := elements s; currentShape := currentShape s;
     drawing := drawing s; appearance := appearance s; dragId := dragId s;
     offset := o |}.

Definition set_currentShape (s : AppState) (t : ShapeType) : AppState :=
  {| elements := elements s; currentShape := t; drawing := drawing s;
     appearance := appearance s; dragId := dragId s; offset := offset s |}.

(** The part of a [React.MouseEvent] the handlers read. *)
Record MouseEvent := {
  clientX : Z;
  clientY : Z;
  offsetX : Z;
  offsetY : Z;
  target_is_canvas : bool;
}.

Module Rect.
Record DOMRect := mk { left : Z; top : Z }.
End Rect.
Abbreviation DOMRect := Rect.DOMRect.

(** ** Geometry clamp *)

Definition CANVAS_WIDTH : Z := 800.
Definition CANVAS_HEIGHT : Z := 600.

(** [Math.max(min, Math.min(max, val))] *)
Definition clamp (val min max : Z) : Z := Z.max min (Z.min max val).

(** ** Draw session *)

(** [handleMouseDown]; [now] is the value of [Date.now()]. *)
Definition handleMouseDown (rect : DOMRect) (now : N) (e : MouseEvent)
    (s : AppState) : AppState :=
  if negb (target_is_canvas e) then s else
  let x := clientX e - Rect.left rect in
  let y := clientY e - Rect.top rect in
  let a := appearance s in
  let newEl :=
    match currentShape s with
    | line =>
        El.mk (pretty now) line x y 0 0 (a_color a) (a_background a)
              (a_lineStyle a) (a_lineWidth a) false (Some x) (Some y)
    | t =>
        El.mk (pretty now) t x y 0 0 (a_color a) (a_background a)
              (a_lineStyle a) (a_lineWidth a) false None None
    end in
  set_drawing (set_elements s (elements s ++ [newEl])) true.

(** The updater passed to [setElements] in [handleMouseMove], applied to
    the clamped pointer [(x, y)]. *)
Definition moveLast (x y : Z) (prev : list DrawingElement)
    : list DrawingElement :=
  match last prev with
  | None => prev
  | Some lst =>
      match El.type lst with
      | line =>
          let x2 := clamp x 0 CANVAS_WIDTH in
          let y2 := clamp y 0 CANVAS_HEIGHT in
          removelast prev ++ [El.with_far lst x2 y2]
      | circle =>
          let width := x - El.x lst in
          let height := y - El.y lst in
          let width :=
            if El.x lst + width >? CANVAS_WIDTH
            then CANVAS_WIDTH - El.x lst else width in
          let height :=
            if El.y lst + height >? CANVAS_HEIGHT
            then CANVAS_HEIGHT - El.y lst else height in
          let width := if El.x lst + width <? 0 then - El.x lst else width in
          let height := if El.y lst + height <? 0 then - El.y lst else height in
          removelast prev ++ [El.with_extent lst width height]
      | rectangle =>
          let width :=
            clamp (x - El.x lst) (- El.x lst) (CANVAS_WIDTH - El.x lst) in
          let height :=
            clamp (y - El.y lst) (- El.y lst) (CANVAS_HEIGHT - El.y lst) in
          removelast prev ++ [El.with_extent lst width height]
      end
  end.

Definition handleMouseMove (rect : DOMRect) (e : MouseEvent) (s : AppState)
    : AppState :=
  if negb (drawing s) then s else
  let x := clientX e - Rect.left rect in
  let y := clientY e - Rect.top rect in
  let x := clamp x 0 CANVAS_WIDTH in
  let y := clamp y 0 CANVAS_HEIGHT in
  set_elements s (moveLast x y (elements s)).

Definition handleMouseUp (s : AppState) : AppState := set_drawing s false.

(** ** Selection and drag *)

Definition handleSelect (id : string) (s : AppState) : AppState :=
  set_elements s
    (map (fun el => El.with_selected el (String.eqb (El.id el) id))
         (elements s)).

Definition handleDragStart (e : MouseEvent) (id : string) (s : AppState)
    : AppState :=
  match find (fun el => String.eqb (El.id el) id) (elements s) with
  | None => s
  | Some _ => set_offset (set_dragId s (Some id)) (offsetX e, offsetY e)
  end.

(** The function mapped over [prev] in [handleDragMove]; [(x, y)] is the
    pointer minus the stored offset. *)
Definition dragElement (dragId : string) (x y : Z) (el : DrawingElement)
    : DrawingElement :=
  if negb (String.eqb (El.id el) dragId) then el else
  let '(newX, newY) :=
    match El.type el with
    | line => (clamp x 0 CANVAS_WIDTH, clamp y 0 CANVAS_HEIGHT)
    | _ =>
        let w := El.width el in
        let h := El.height el in
        let newX :=
          if w >=? 0 then clamp x 0 (CANVAS_WIDTH - w)
          else
            let newX := clamp x 0 CANVAS_WIDTH in
            if newX + w <? 0 then - w else newX in
        let newY :=
          if h >=? 0 then clamp y 0 (CANVAS_HEIGHT - h)
          else
            let newY := clamp y 0 CANVAS_HEIGHT in
            if newY + h <? 0 then - h else newY in
        (newX, newY)
    end in
  let newEl := El.with_pos el newX newY in
  match El.type el, El.x2 el, El.y2 el with
  | line, Some ex2, Some ey2 =>
      let dx := newX - El.x el in
      let dy := newY - El.y el in
      let newX2 := clamp (ex2 + dx) 0 CANVAS_WIDTH in
      let newY2 := clamp (ey2 + dy) 0 CANVAS_HEIGHT in
      let '(newX2, newX) :=
        if newX2 <? 0 then
          (0, clamp (newX + (0 - (ex2 + dx))) 0 CANVAS_WIDTH)
        else if newX2 >? CANVAS_WIDTH then
          (CANVAS_WIDTH,
           clamp (newX + (CANVAS_WIDTH - (ex2 + dx))) 0 CANVAS_WIDTH)
        else (newX2, newX) in
      let '(newY2, newY) :=
        if newY2 <? 0 then
          (0, clamp (newY + (0 - (ey2 + dy))) 0 CANVAS_HEIGHT)
        else if newY2 >? CANVAS_HEIGHT then
          (CANVAS_HEIGHT,
           clamp (newY + (CANVAS_HEIGHT - (ey2 + dy))) 0 CANVAS_HEIGHT)
        else (newY2, newY) in
      El.with_far (El.with_pos newEl newX newY) newX2 newY2
  | _, _, _ => newEl
  end.

(** [!dragId]: [null] and the empty string are falsy. *)
Definition falsy (d : option string) : bool :=
  match d with
  | None => true
  | Some d => String.eqb d ""
  end.

Definition handleDragMove (rect : DOMRect) (e : MouseEvent) (s : AppState)
    : AppState :=
  match dragId s with
  | None => s
  | Some d =>
      if String.eqb d "" then s else
      let x := clientX e - Rect.left rect - fst (offset s) in
      let y := clientY e - Rect.top rect - snd (offset s) in
      set_elements s (map (dragElement d x y) (elements s))
  end.

Definition handleDragEnd (s : AppState) : AppState := set_dragId s None.

(** ** Operations of the draw and drag sessions

    The spec's operations, as the handler calls they stand for.  [start]
    is the toolbar's [setCurrentShape] followed by a pointer-down. *)
Inductive Op :=
  | start (t : ShapeType) (now : N) (e : MouseEvent)
  | update (e : MouseEvent)
  | commit
  | beginDrag (e : MouseEvent) (id : string)
  | dragTo (e : MouseEvent)
  | endDrag.

Definition step (rect : DOMRect) (s : AppState) (op : Op) : AppState :=
  match op with
  | start t now e => handleMouseDown rect now e (set_currentShape s t)
  | update e => handleMouseMove rect e s
  | commit => handleMouseUp s
  | beginDrag e id => handleDragStart e id s
  | dragTo e => handleDragMove rect e s
  | endDrag => handleDragEnd s
  end.

(** The states after each operation of [ops], in order. *)
Fixpoint trace (rect : DOMRect) (s : AppState) (ops : list Op)
    : list AppState :=
  match ops with
  | [] => []
  | op :: ops => let s' := step rect s op in s' :: trace rect s' ops
  end.

Definition run (rect : DOMRect) (s : AppState) (ops : list Op) : AppState :=
  fold_left (step rect) ops s.

(** ** Footprints *)

(** The far end of a line as the renderer reads it: [el.x2 ?? el.x]. *)
Definition farX (el : DrawingElement) : Z := default (El.x el) (El.x2 el).
Definition farY (el : DrawingElement) : Z := default (El.y el) (El.y2 el).

(** The sign-normalized bounding box [((xmin, xmax), (ymin, ymax))]. *)
Definition footprint (el : DrawingElement) : (Z * Z) * (Z * Z) :=
  match El.type el with
  | line =>
      ((Z.min (El.x el) (farX el), Z.max (El.x el) (farX el)),
       (Z.min (El.y el) (farY el), Z.max (El.y el) (farY el)))
  | _ =>
      ((Z.min (El.x el) (El.x el + El.width el),
        Z.max (El.x el) (El.x el + El.width el)),
       (Z.min (El.y el) (El.y el + El.height el),
        Z.max (El.y el) (El.y el + El.height el)))
  end.

Definition within_canvas (el : DrawingElement) : Prop :=
  0 <= fst (fst (footprint el)) /\ snd (fst (footprint el)) <= CANVAS_WIDTH /\
  0 <= fst (snd (footprint el)) /\ snd (snd (footprint el)) <= CANVAS_HEIGHT.

Global Instance within_canvas_dec el : Decision (within_canvas el).
Proof. unfold within_canvas. apply _. Defined.

(** The canvas-relative pointer of an event lies on the canvas. *)
Definition pointer_on_canvas (rect : DOMRect) (e : MouseEvent) : Prop :=
  0 <= clientX e - Rect.left rect <= CANVAS_WIDTH /\
  0 <= clientY e - Rect.top rect <= CANVAS_HEIGHT.

Definition op_ok (rect : DOMRect) (op : Op) : Prop :=
  match op with
  | start _ _ e => pointer_on_canvas rect e
  | _ => True
  end.

Definition all_within (s : AppState) : Prop :=
  Forall within_canvas (elements s).

(** ** The clamp policies in the words of the specification *)

(** Drag of a rectangle or circle, one axis: for a non-negative extent
    [w] the origin is clamped to [[0, dim - w]]; for a negative extent it
    is clamped to [[0, dim]] and then, if [origin + w < 0], set to [- w]. *)
Definition dragAxis (dim x w : Z) : Z :=
  if w >=? 0 then clamp x 0 (dim - w)
  else if clamp x 0 dim + w <? 0 then - w else clamp x 0 dim.

(** Draw-time extent from the fixed [anchor] to the pointer [far], one
    axis: the far edge [anchor + extent] is capped at [dim] first, then
    the near edge is floored at [0]. *)
Definition clampExtentAxis (dim anchor far : Z) : Z :=
  let extent := far - anchor in
  let extent := if anchor + extent >? dim then dim - anchor else extent in
  if anchor + extent <? 0 then - anchor else extent.

(** The attributes a drag must not touch. *)
Definition undragged (el : DrawingElement) :=
  (El.id el, El.type el, El.width el, El.height el, El.color el,
   El.background el, El.lineStyle el, El.lineWidth el, El.selected el).

Definition count_selected (els : list DrawingElement) : nat :=
  length (filter (fun el => El.selected el = true) els).

Definition count_named (id : string) (els : list DrawingElement) : nat :=
  length (filter (fun el => El.id el = id) els).

(** ** Persistence *)

(** The values [JSON.stringify] prints and [JSON.parse] builds. *)
Local Unset Elimination Schemes.
Inductive json :=
  | JNull
  | JBool (b : bool)
  | JNum (n : Z)
  | JStr (s : string)
  | JArr (items : list json)
  | JObj (props : list (string * json)).
Local Set Elimination Schemes.

Definition shapeTypeName (t : ShapeType) : string :=
  match t with
  | rectangle => "rectangle"
  | circle => "circle"
  | line => "line"
  end.

Definition lineStyleName (l : LineStyle) : string :=
  match l with
  | solid => "solid"
  | dashed => "dashed"
  end.

(** A property whose value is [undefined] is not printed. *)
Definition optionalNum (key : string) (v : option Z)
    : list (string * json) :=
  match v with
  | Some n => [(key, JNum n)]
  | None => []
  end.

(** The own properties of an element, in the order of the object literal
    of [handleMouseDown] (spreading keeps it). *)
Definition elementToJSON (el : DrawingElement) : json :=
  JObj ([("id", JStr (El.id el));
         ("type", JStr (shapeTypeName (El.type el)));
         ("x", JNum (El.x el));
         ("y", JNum (El.y el))]
        ++ optionalNum "x2" (El.x2 el)
        ++ optionalNum "y2" (El.y2 el)
        ++ [("width", JNum (El.width el));
            ("height", JNum (El.height el));
            ("color", JStr (El.color el));
            ("background", JStr (El.background el));
            ("lineStyle", JStr (lineStyleName (El.lineStyle el)));
            ("lineWidth", JNum (El.lineWidth el));
            ("selected", JBool (El.selected el))]).

(** Property access [obj.key] on a parsed object. *)
Definition getProp (key : string) (props : list (string * json))
    : option json :=
  snd <$> find (fun p => String.eqb (fst p) key) props.

Definition asNum (j : option json) : option Z :=
  match j with Some (JNum n) => Some n | _ => None end.

Definition asStr (j : option json) : option string :=
  match j with Some (JStr s) => Some s | _ => None end.

Definition asBool (j : option json) : option bool :=
  match j with Some (JBool b) => Some b | _ => None end.

Definition shapeTypeOfName (s : string) : option ShapeType :=
  if String.eqb s "rectangle" then Some rectangle
  else if String.eqb s "circle" then Some circle
  else if String.eqb s "line" then Some line
  else None.

Definition lineStyleOfName (s : string) : option LineStyle :=
  if String.eqb s "solid" then Some solid
  else if String.eqb s "dashed" then Some dashed
  else None.

(** A parsed value read as a [DrawingElement]; [None] when it does not
    have the interface's properties. *)
Definition elementOfJSON (j : json) : option DrawingElement :=
  match j with
  | JObj props =>
      id ← asStr (getProp "id" props);
      type ← asStr (getProp "type" props) ≫= shapeTypeOfName;
      x ← asNum (getProp "x" props);
      y ← asNum (getProp "y" props);
      width ← asNum (getProp "width" props);
      height ← asNum (getProp "height" props);
      color ← asStr (getProp "color" props);
      background ← asStr (getProp "background" props);
      lineStyle ← asStr (getProp "lineStyle" props) ≫= lineStyleOfName;
      lineWidth ← asNum (getProp "lineWidth" props);
      selected ← asBool (getProp "selected" props);
      Some (El.mk id type x y width height color background lineStyle
                  lineWidth selected
                  (asNum (getProp "x2" props)) (asNum (getProp "y2" props)))
  | _ => None
  end.

Definition elementsToJSON (els : list DrawingElement) : json :=
  JArr (map elementToJSON els).

Definition elementsOfJSON (j : json) : option (list DrawingElement) :=
  match j with
  | JArr items => mapM elementOfJSON items
  | _ => None
  end.

(** The text side of the platform's JSON: [JSON.stringify], [JSON.parse]
    ([None] when it throws) and the test for the empty string, which is
    the one falsy text. *)
Class JSONText (Blob : Type) := {
  stringify : json -> Blob;
  parse : Blob -> option json;
  is_empty : Blob -> bool;
}.

(** What the application relies on: parsing a printed value gives the
    value back, and a printed value is never the empty text. *)
Class JSONTextLaws (Blob : Type) `{JSONText Blob} : Prop := {
  parse_stringify : forall j, parse (stringify j) = Some j;
  stringify_nonempty : forall j, is_empty (stringify j) = false;
}.

(** [localStorage.setItem('drawing', JSON.stringify(elements))] *)
Definition handleSave `{JSONText Blob} (s : AppState)
    (localStorage : gmap string Blob) : gmap string Blob :=
  <["drawing" := stringify (elementsToJSON (elements s))]> localStorage.

Definition propCount (j : json) : nat :=
  match j with
  | JObj props => length props
  | _ => 0%nat
  end.

(** Each item has as many properties as the element read from it
    prints: with [elementOfJSON] having found them all, the item has
    those properties, in some order, and no other. *)
Definition printedAs (items : list json) (els : list DrawingElement)
    : bool :=
  forallb (fun p => Nat.eqb (propCount p.1) (propCount (elementToJSON p.2)))
          (zip items els).

(** The collection a parsed value is, when it is one: an array whose
    items are elements with nothing missing, mistyped or added. *)
Definition typedElements (j : json) : option (list DrawingElement) :=
  els ← elementsOfJSON j;
  match j with
  | JArr items => if printedAs items els then Some els else None
  | _ => None
  end.

(** What [handleLoad] leaves behind.  [setElements(JSON.parse(data))]
    validates nothing: [Loaded s'] is the next state when no update was
    made or the parsed value is a collection; [Untyped s j] is the state
    [s] with the parsed value [j], which is no [DrawingElement[]],
    installed as its collection; [Threw] is [JSON.parse] throwing, with
    no update made. *)
Inductive LoadResult :=
  | Loaded (s' : AppState)
  | Untyped (s : AppState) (j : json)
  | Threw.

(** [handleLoad]: [if (data) setElements(JSON.parse(data))]. *)
Definition handleLoad `{JSONText Blob} (localStorage : gmap string Blob)
    (s : AppState) : LoadResult :=
  match localStorage !! "drawing" with
  | None => Loaded s
  | Some data =>
      if is_empty data then Loaded s
      else
        match parse data with
        | None => Threw
        | Some j =>
            match typedElements j with
            | Some els => Loaded (set_elements s els)
            | None => Untyped s j
            end
        end
  end.

(** ** Appearance editor *)

(** The [(field, value)] pairs the toolbar passes to
    [handleAppearanceChange]: a colour text for [color] and [background],
    a line style for [lineStyle], a number for [lineWidth]. *)
Inductive AppearanceEdit :=
  | edit_color (value : string)
  | edit_background (value : string)
  | edit_lineStyle (value : LineStyle)
  | edit_lineWidth (value : Z).

(** [{ ...prev, [field]: value }] on the default appearance. *)
Definition Appearance_with (c : AppearanceEdit) (a : Appearance)
    : Appearance :=
  match c with
  | edit_color v =>
      {| a_color := v; a_background := a_background a;
         a_lineStyle := a_lineStyle a; a_lineWidth := a_lineWidth a |}
  | edit_background v =>
      {| a_color := a_color a; a_background := v;
         a_lineStyle := a_lineStyle a; a_lineWidth := a_lineWidth a |}
  | edit_lineStyle v =>
      {| a_color := a_color a; a_background := a_background a;
         a_lineStyle := v; a_lineWidth := a_lineWidth a |}
  | edit_lineWidth v =>
      {| a_color := a_color a; a_background := a_background a;
         a_lineStyle := a_lineStyle a; a_lineWidth := v |}
  end.

(** [{ ...el, [field]: value }] on an element. *)
Definition El_with (c : AppearanceEdit) (el : DrawingElement)
    : DrawingElement :=
  match c with
  | edit_color v =>
      El.mk (El.id el) (El.type el) (El.x el) (El.y el) (El.width el)
            (El.height el) v (El.background el) (El.lineStyle el)
            (El.lineWidth el) (El.selected el) (El.x2 el) (El.y2 el)
  | edit_background v =>
      El.mk (El.id el) (El.type el) (El.x el) (El.y el) (El.width el)
            (El.height el) (El.color el) v (El.lineStyle el)
            (El.lineWidth el) (El.selected el) (El.x2 el) (El.y2 el)
  | edit_lineStyle v =>
      El.mk (El.id el) (El.type el) (El.x el) (El.y el) (El.width el)
            (El.height el) (El.color el) (El.background el) v
            (El.lineWidth el) (El.selected el) (El.x2 el) (El.y2 el)
  | edit_lineWidth v =>
      El.mk (El.id el) (El.type el) (El.x el) (El.y el) (El.width el)
            (El.height el) (El.color el) (El.background el)
            (El.lineStyle el) v (El.selected el) (El.x2 el) (El.y2 el)
  end.

Definition set_appearance (s : AppState) (a : Appearance) : AppState :=
  {| elements := elements s; currentShape := currentShape s;
     drawing := drawing s; appearance := a; dragId := dragId s;
     offset := offset s |}.

Definition handleAppearanceChange (c : AppearanceEdit) (s : AppState)
    : AppState :=
  set_elements (set_appearance s (Appearance_with c (appearance s)))
    (map (fun el => if El.selected el then El_with c el else el)
         (elements s)).

(** The appearance attributes an element carries. *)
Definition elementAppearance (el : DrawingElement) : Appearance :=
  {| a_color := El.color el; a_background := El.background el;
     a_lineStyle := El.lineStyle el; a_lineWidth := El.lineWidth el |}.

(** ** The wiring of the handlers in the JSX

    A handler bound on a shape runs first and the event then bubbles to
    the canvas, whose handler was chosen from the state of the same
    render. *)

(** [onMouseMove={drawing ? handleMouseMove : dragId ? handleDragMove :
    undefined}] on the canvas, as chosen in the render of [render]. *)
Definition canvasMoveHandler (rect : DOMRect) (render : AppState)
    (e : MouseEvent) (s : AppState) : AppState :=
  if drawing render then handleMouseMove rect e s
  else if negb (falsy (dragId render)) then handleDragMove rect e s
  else s.

(** [onMouseUp={drawing ? handleMouseUp : dragId ? handleDragEnd :
    undefined}] on the canvas. *)
Definition canvasUpHandler (render : AppState) (s : AppState) : AppState :=
  if drawing render then handleMouseUp s
  else if negb (falsy (dragId render)) then handleDragEnd s
  else s.

(** A pointer move whose target is the canvas. *)
Definition canvasMouseMove (rect : DOMRect) (e : MouseEvent) (s : AppState)
    : AppState :=
  canvasMoveHandler rect s e s.

(** A pointer release whose target is the canvas. *)
Definition canvasMouseUp (s : AppState) : AppState := canvasUpHandler s s.

(** A pointer move whose target is a shape: the shape's
    [onMouseMove: handleDragMove], then the canvas handler. *)
Definition shapeMouseMove (rect : DOMRect) (e : MouseEvent) (s : AppState)
    : AppState :=
  canvasMoveHandler rect s e (handleDragMove rect e s).

(** A pointer release whose target is a shape: the shape's
    [onMouseUp: handleDragEnd], then the canvas handler. *)
Definition shapeMouseUp (s : AppState) : AppState :=
  canvasUpHandler s (handleDragEnd s).

(** A pointer press whose target is the shape [id]: the shape's
    [onMouseDown], then [handleMouseDown] on the canvas. *)
Definition shapeMouseDown (rect : DOMRect) (now : N) (e : MouseEvent)
    (id : string) (s : AppState) : AppState :=
  handleMouseDown rect now e (handleDragStart e id s).

(** ** Rendering: stacking *)

(** [Array.prototype.findIndex], counting from [i]; [-1] when no element
    passes the test. *)
Fixpoint findIndexFrom {A : Type} (p : A -> bool) (i : Z) (l : list A) : Z :=
  match l with
  | [] => -1
  | a :: l => if p a then i else findIndexFrom p (i + 1) l
  end.

Definition findIndex {A : Type} (p : A -> bool) (l : list A) : Z :=
  findIndexFrom p 0 l.

(** [zIndex: idx + 1] of [renderElement], with
    [idx = elements.findIndex(e => e.id === el.id)]. *)
Definition zIndex (els : list DrawingElement) (el : DrawingElement) : Z :=
  findIndex (fun e => String.eqb (El.id e) (El.id el)) els + 1.

(** ** Whole sessions *)

(** The draw and drag operations, a click on a shape and a change in the
    toolbar. *)
Inductive Action :=
  | act (op : Op)
  | selectAt (id : string)
  | editAppearance (c : AppearanceEdit).

Definition perform (rect : DOMRect) (s : AppState) (a : Action) : AppState :=
  match a with
  | act op => step rect s op
  | selectAt id => handleSelect id s
  | editAppearance c => handleAppearanceChange c s
  end.

Definition performAll (rect : DOMRect) (s : AppState) (acts : list Action)
    : AppState :=
  fold_left (perform rect) acts s.

(** The values of [Date.now()] at the pointer-downs that reached the
    canvas, in order. *)
Definition createdBy (a : Action) : list N :=
  match a with
  | act (start _ now e) => if target_is_canvas e then [now] else []
  | _ => []
  end.

Definition created (acts : list Action) : list N :=
  flat_map createdBy acts.

Definition action_ok (rect : DOMRect) (a : Action) : Prop :=
  match a with
  | act op => op_ok rect op
  | _ => True
  end.

(** ** Sample events *)

Definition rect0 : DOMRect := Rect.mk 0 0.

(** A pointer event at [(cx, cy)] whose target is the canvas. *)
Definition onCanvas (cx cy : Z) : MouseEvent :=
  {| clientX := cx; clientY := cy; offsetX := 0; offsetY := 0;
     target_is_canvas := true |}.

(** A pointer event at [(cx, cy)] whose target is a shape, [(ox, oy)]
    from the target's own origin. *)
Definition onShape (cx cy ox oy : Z) : MouseEvent :=
  {| clientX := cx; clientY := cy; offsetX := ox; offsetY := oy;
     target_is_canvas := false |}.

(** ** Sample sessions *)

(** A rectangle drawn up and to the left, a line drawn past the right
    edge, and both dragged. *)
Definition bounds_sample : list Op :=
  [ start rectangle 1 (onCanvas 100 100); update (onCanvas 50 50); commit;
    start line 2 (onCanvas 790 10); update (onCanvas 850 10); commit;
    beginDrag (onShape 60 60 10 10) "1"; dragTo (onShape (-100) 900 0 0);
    endDrag;
    beginDrag (onShape 795 10 5 0) "2"; dragTo (onCanvas 900 (-20));
    endDrag ].

(** A line drawn along the top of the canvas, grabbed at its anchor and
    dragged 100 to the right. *)
Definition line_sample : list Op :=
  [ start line 1 (onCanvas 100 10); update (onCanvas 790 10); commit;
    beginDrag (onShape 100 10 0 0) "1"; dragTo (onShape 200 10 0 0) ].

(** A rectangle at (10,10) of extent (50,50), grabbed at (5,5) from its
    origin. *)
Definition box_sample : list Op :=
  [ start rectangle 1 (onCanvas 10 10); update (onCanvas 60 60); commit;
    beginDrag (onShape 15 15 5 5) "1" ].

(** A circle anchored at (300,300) of extent (-40,-40), grabbed at its
    origin. *)
Definition disc_sample : list Op :=
  [ start circle 2 (onCanvas 300 300); update (onCanvas 260 260); commit;
    beginDrag (onShape 300 300 0 0) "2" ].

(** [start('rectangle', (100,100))] then [update((50,50))]. *)
Definition rectangle_sample : list Op :=
  [ start rectangle 1 (onCanvas 100 100); update (onCanvas 50 50) ].

(** [start('line', (790,10))] then [update((850,10))]. *)
Definition edge_line_sample : list Op :=
  [ start line 2 (onCanvas 790 10); update (onCanvas 850 10) ].

(** Two committed shapes, none selected. *)
Definition pair_sample : AppState :=
  run rect0 initialState
    [ start rectangle 1 (onCanvas 100 100); commit;
      start circle 2 (onCanvas 300 300); commit ].

(** Two shapes started at the same [Date.now()]. *)
Definition twin_sample : AppState :=
  run rect0 initialState
    [ start rectangle 7 (onCanvas 100 100); commit;
      start circle 7 (onCanvas 300 300); commit ].

(** One shape of each kind, extents of both signs, the line selected. *)
Definition gallery_sample : AppState :=
  handleSelect "3"
    (run rect0 initialState
       [ start rectangle 1 (onCanvas 100 100); update (onCanvas 50 50);
         commit;
         start circle 2 (onCanvas 300 300); update (onCanvas 340 350);
         commit;
         start line 3 (onCanvas 790 10); update (onCanvas 850 10); commit ]).

(** A JSON text that is the printed value itself. *)
Definition treeText : JSONText json :=
  {| stringify := fun j => j; parse := Some; is_empty := fun _ => false |}.

(** A session with two shapes, two clicks and a toolbar change. *)
Definition session_sample : list Action :=
  [ act (start rectangle 1 (onCanvas 100 100)); act (update (onCanvas 50 50));
    act commit; selectAt "1";
    act (start line 2 (onCanvas 790 10)); act (update (onCanvas 850 10));
    act commit; selectAt "2"; editAppearance (edit_color "#ff0000");
    act (beginDrag (onShape 795 10 5 0) "2");
    act (dragTo (onCanvas 900 (-20))); act endDrag ].

(** * Properties *)

(** ** Arithmetic of the comparisons and of [clamp] *)

Ltac boolz :=
  repeat match goal with
  | |- context [?a >? ?b] => rewrite (Z.gtb_ltb a b)
  | |- context [?a >=? ?b] => rewrite (Z.geb_leb a b)
  | |- context [?a <? ?b] => destruct (Z.ltb_spec a b)
  | |- context [?a <=? ?b] => destruct (Z.leb_spec a b)
  end.

Lemma clamp_range v lo hi : lo <= hi -> lo <= clamp v lo hi <= hi.
Proof. unfold clamp. lia. Qed.

(** ** The shape of a dragged element *)

Lemma clamp_ltb_lo v hi : 0 <= hi -> (clamp v 0 hi <? 0) = false.
Proof. intros. apply Z.ltb_ge. unfold clamp. lia. Qed.

Lemma clamp_gtb_hi v hi : 0 <= hi -> (clamp v 0 hi >? hi) = false.
Proof. intros. rewrite Z.gtb_ltb. apply Z.ltb_ge. unfold clamp. lia. Qed.

Lemma dragElement_other d x y el :
  String.eqb (El.id el) d = false -> dragElement d x y el = el.
Proof. intros H. unfold dragElement. by rewrite H. Qed.

Lemma dragElement_nonline d x y el :
  String.eqb (El.id el) d = true -> El.type el <> line ->
  dragElement d x y el =
    El.with_pos el (dragAxis CANVAS_WIDTH x (El.width el))
                   (dragAxis CANVAS_HEIGHT y (El.height el)).
Proof.
  intros Hid Ht. unfold dragElement. rewrite Hid. cbn [negb].
  unfold dragAxis. by destruct (El.type el).
Qed.

(** On a line the two out-of-range tests read the already clamped far
    end, so neither adjustment branch is taken. *)
Lemma dragElement_line d x y el ex2 ey2 :
  String.eqb (El.id el) d = true -> El.type el = line ->
  El.x2 el = Some ex2 -> El.y2 el = Some ey2 ->
  dragElement d x y el =
    let newX := clamp x 0 CANVAS_WIDTH in
    let newY := clamp y 0 CANVAS_HEIGHT in
    El.with_far (El.with_pos el newX newY)
      (clamp (ex2 + (newX - El.x el)) 0 CANVAS_WIDTH)
      (clamp (ey2 + (newY - El.y el)) 0 CANVAS_HEIGHT).
Proof.
  intros Hid Ht Hx2 Hy2. unfold dragElement.
  rewrite Hid, Ht, Hx2, Hy2. cbn [negb]. cbv zeta.
  rewrite !clamp_ltb_lo, !clamp_gtb_hi by done.
  reflexivity.
Qed.

Lemma dragElement_line_nofar d x y el :
  String.eqb (El.id el) d = true -> El.type el = line ->
  El.x2 el = None \/ El.y2 el = None ->
  dragElement d x y el =
    El.with_pos el (clamp x 0 CANVAS_WIDTH) (clamp y 0 CANVAS_HEIGHT).
Proof.
  intros Hid Ht Hfar. unfold dragElement. rewrite Hid, Ht. cbn [negb].
  destruct Hfar as [-> | ->]; [done|]. by destruct (El.x2 el).
Qed.

(** ** The shape of the element being drawn *)

Lemma clamp_idem v hi : clamp (clamp v 0 hi) 0 hi = clamp v 0 hi.
Proof. unfold clamp. lia. Qed.

Lemma clamp_is_clampExtentAxis dim anchor far :
  clamp (far - anchor) (- anchor) (dim - anchor)
    = clampExtentAxis dim anchor far.
Proof.
  unfold clamp, clampExtentAxis. cbv zeta. rewrite Z.gtb_ltb.
  destruct (Z.ltb_spec dim (anchor + (far - anchor)));
    match goal with |- context [?a <? 0] => destruct (Z.ltb_spec a 0) end;
    lia.
Qed.

Lemma moveLast_snoc x y prev lst :
  moveLast x y (prev ++ [lst])
    = prev ++
      [match El.type lst with
       | line =>
           El.with_far lst (clamp x 0 CANVAS_WIDTH) (clamp y 0 CANVAS_HEIGHT)
       | _ =>
           El.with_extent lst (clampExtentAxis CANVAS_WIDTH (El.x lst) x)
                              (clampExtentAxis CANVAS_HEIGHT (El.y lst) y)
       end].
Proof.
  unfold moveLast. rewrite last_snoc, removelast_last.
  destruct (El.type lst); [|reflexivity..].
  by rewrite !clamp_is_clampExtentAxis.
Qed.

(** ** Bounds invariant *)

Lemma minmax_range a b dim :
  0 <= Z.min a b /\ Z.max a b <= dim <-> 0 <= a <= dim /\ 0 <= b <= dim.
Proof. lia. Qed.

(** [within_canvas] as a range of the two ends on each axis. *)
Lemma within_canvas_line el :
  El.type el = line ->
  within_canvas el <->
    (0 <= El.x el <= CANVAS_WIDTH /\ 0 <= farX el <= CANVAS_WIDTH) /\
    (0 <= El.y el <= CANVAS_HEIGHT /\ 0 <= farY el <= CANVAS_HEIGHT).
Proof.
  intros Ht. unfold within_canvas, footprint. rewrite Ht. cbn [fst snd].
  rewrite <- !minmax_range. tauto.
Qed.

Lemma within_canvas_box el :
  El.type el <> line ->
  within_canvas el <->
    (0 <= El.x el <= CANVAS_WIDTH /\
     0 <= El.x el + El.width el <= CANVAS_WIDTH) /\
    (0 <= El.y el <= CANVAS_HEIGHT /\
     0 <= El.y el + El.height el <= CANVAS_HEIGHT).
Proof.
  intros Ht. unfold within_canvas, footprint.
  destruct (El.type el); [| |done]; cbn [fst snd];
    rewrite <- !minmax_range; tauto.
Qed.

Lemma dragAxis_range dim x0 x w :
  0 <= x0 <= dim -> 0 <= x0 + w <= dim ->
  0 <= dragAxis dim x w <= dim /\ 0 <= dragAxis dim x w + w <= dim.
Proof.
  intros H0 H1. unfold dragAxis. rewrite Z.geb_leb.
  destruct (Z.leb_spec 0 w) as [Hw|Hw].
  - pose proof (clamp_range x 0 (dim - w)). lia.
  - pose proof (clamp_range x 0 dim).
    destruct (Z.ltb_spec (clamp x 0 dim + w) 0); lia.
Qed.

Lemma clampExtentAxis_range dim anchor far :
  0 <= anchor <= dim -> 0 <= far <= dim ->
  0 <= anchor + clampExtentAxis dim anchor far <= dim.
Proof.
  intros Ha Hf. rewrite <- clamp_is_clampExtentAxis.
  pose proof (clamp_range (far - anchor) (- anchor) (dim - anchor)). lia.
Qed.

Section Bounds.
Variable rect : DOMRect.

Lemma initial_within : all_within initialState.
Proof. constructor. Qed.

Lemma handleMouseDown_within now e s :
  pointer_on_canvas rect e -> all_within s ->
  all_within (handleMouseDown rect now e s).
Proof.
  intros [Hx Hy] Hs. unfold handleMouseDown.
  destruct (target_is_canvas e); simpl; [|exact Hs].
  unfold all_within; simpl. apply Forall_app. split; [exact Hs|].
  apply Forall_singleton.
  destruct (currentShape s).
  - apply within_canvas_box; [done|]. simpl. lia.
  - apply within_canvas_box; [done|]. simpl. lia.
  - apply within_canvas_line; [done|]. unfold farX, farY. simpl. lia.
Qed.

Lemma moveLast_within x y prev :
  0 <= x <= CANVAS_WIDTH -> 0 <= y <= CANVAS_HEIGHT ->
  Forall within_canvas prev -> Forall within_canvas (moveLast x y prev).
Proof.
  intros Hx Hy Hprev.
  destruct (last prev) as [lst|] eqn:Hlast;
    [|unfold moveLast; by rewrite Hlast].
  apply last_Some in Hlast as [l' ->].
  rewrite moveLast_snoc.
  apply Forall_app in Hprev as [Hl' Hlst].
  rewrite Forall_singleton in Hlst.
  apply Forall_app. split; [exact Hl'|]. apply Forall_singleton.
  destruct (decide (El.type lst = line)) as [Ht|Ht].
  - rewrite Ht. apply within_canvas_line in Hlst as [[Hx0 _] [Hy0 _]]; [|done].
    apply within_canvas_line; [done|]. unfold farX, farY. simpl.
    pose proof (clamp_range x 0 CANVAS_WIDTH).
    pose proof (clamp_range y 0 CANVAS_HEIGHT).
    unfold CANVAS_WIDTH, CANVAS_HEIGHT in *. lia.
  - apply within_canvas_box in Hlst as [[Hx0 _] [Hy0 _]]; [|done].
    assert (within_canvas
              (El.with_extent lst (clampExtentAxis CANVAS_WIDTH (El.x lst) x)
                 (clampExtentAxis CANVAS_HEIGHT (El.y lst) y))) as Hgoal.
    { apply within_canvas_box; [done|]. simpl.
      pose proof (clampExtentAxis_range CANVAS_WIDTH (El.x lst) x Hx0 Hx).
      pose proof (clampExtentAxis_range CANVAS_HEIGHT (El.y lst) y Hy0 Hy).
      tauto. }
    by destruct (El.type lst).
Qed.

Lemma handleMouseMove_within e s :
  all_within s -> all_within (handleMouseMove rect e s).
Proof.
  intros Hs. unfold handleMouseMove.
  destruct (drawing s); simpl; [|exact Hs].
  apply moveLast_within; [apply clamp_range; by compute ..|exact Hs].
Qed.

Lemma dragElement_within d x y el :
  within_canvas el -> within_canvas (dragElement d x y el).
Proof.
  intros Hel.
  destruct (String.eqb (El.id el) d) eqn:Hid;
    [|by rewrite dragElement_other].
  pose proof (clamp_range x 0 CANVAS_WIDTH) as Hcx.
  pose proof (clamp_range y 0 CANVAS_HEIGHT) as Hcy.
  destruct (decide (El.type el = line)) as [Ht|Ht].
  - destruct (El.x2 el) as [ex2|] eqn:Hx2, (El.y2 el) as [ey2|] eqn:Hy2.
    + rewrite (dragElement_line _ _ _ _ ex2 ey2) by done.
      apply within_canvas_line; [done|]. unfold farX, farY. simpl.
      pose proof (clamp_range (ex2 + (clamp x 0 CANVAS_WIDTH - El.x el))
                    0 CANVAS_WIDTH).
      pose proof (clamp_range (ey2 + (clamp y 0 CANVAS_HEIGHT - El.y el))
                    0 CANVAS_HEIGHT).
      unfold CANVAS_WIDTH, CANVAS_HEIGHT in *. lia.
    + rewrite dragElement_line_nofar by (rewrite ?Hx2, ?Hy2; auto).
      apply within_canvas_line in Hel as [[_ Hfx] _]; [|done].
      apply within_canvas_line; [done|]. revert Hfx. unfold farX, farY.
      simpl. rewrite Hx2, Hy2. simpl.
      unfold CANVAS_WIDTH, CANVAS_HEIGHT in *. lia.
    + rewrite dragElement_line_nofar by (rewrite ?Hx2, ?Hy2; auto).
      apply within_canvas_line in Hel as [_ [_ Hfy]]; [|done].
      apply within_canvas_line; [done|]. revert Hfy. unfold farX, farY.
      simpl. rewrite Hx2, Hy2. simpl.
      unfold CANVAS_WIDTH, CANVAS_HEIGHT in *. lia.
    + rewrite dragElement_line_nofar by (rewrite ?Hx2, ?Hy2; auto).
      apply within_canvas_line; [done|]. unfold farX, farY.
      simpl. rewrite Hx2, Hy2. simpl.
      unfold CANVAS_WIDTH, CANVAS_HEIGHT in *. lia.
  - rewrite dragElement_nonline by done.
    apply within_canvas_box in Hel as [[Hx0 Hx1] [Hy0 Hy1]]; [|done].
    apply within_canvas_box; [done|]. simpl.
    split; [exact (dragAxis_range _ _ x _ Hx0 Hx1)
           |exact (dragAxis_range _ _ y _ Hy0 Hy1)].
Qed.

Lemma handleDragMove_within e s :
  all_within s -> all_within (handleDragMove rect e s).
Proof.
  intros Hs. unfold handleDragMove.
  destruct (dragId s) as [d|]; [|exact Hs].
  destruct (String.eqb d ""); [exact Hs|].
  unfold all_within; simpl. apply Forall_fmap.
  eapply Forall_impl; [exact Hs|].
  intros el Hel. by apply dragElement_within.
Qed.

Lemma handleDragStart_within e id s :
  all_within s -> all_within (handleDragStart e id s).
Proof.
  intros Hs. unfold handleDragStart. by destruct (find _ _).
Qed.

Lemma step_within s op :
  op_ok rect op -> all_within s -> all_within (step rect s op).
Proof.
  destruct op; simpl; intros Hok Hs.
  - by apply handleMouseDown_within.
  - by apply handleMouseMove_within.
  - exact Hs.
  - by apply handleDragStart_within.
  - by apply handleDragMove_within.
  - exact Hs.
Qed.

Lemma trace_within ops : forall s,
  all_within s -> Forall (op_ok rect) ops ->
  Forall all_within (trace rect s ops).
Proof.
  induction ops as [|op ops IH]; intros s Hs Hops; simpl.
  - constructor.
  - apply Forall_cons in Hops as [Hop Hops].
    pose proof (step_within s op Hop Hs) as Hs'.
    constructor; [exact Hs'|]. by apply IH.
Qed.
End Bounds.

(** C1. Bounds invariant: along every sequence of start, update, commit,
    beginDrag, dragTo and endDrag from the empty drawing in which every
    start pointer lies on the canvas, after each operation the
    sign-normalized bounding box of every shape of the collection lies
    within [0,800] x [0,600]; negative widths and heights and the two ends
    of a line included. *)
Theorem bounds_invariant (rect : DOMRect) (ops : list Op) :
  Forall (op_ok rect) ops ->
  Forall (fun s => Forall within_canvas (elements s))
         (trace rect initialState ops).
Proof.
  intros Hops. apply (trace_within rect ops initialState); [|exact Hops].
  apply initial_within.
Qed.

Lemma bounds_invariant_witness :
  Forall (op_ok rect0) bounds_sample /\
  Forall (fun s => Forall within_canvas (elements s))
         (trace rect0 initialState bounds_sample).
Proof.
  assert (H : Forall (op_ok rect0) bounds_sample).
  { unfold bounds_sample, op_ok, pointer_on_canvas,
      CANVAS_WIDTH, CANVAS_HEIGHT.
    repeat constructor; simpl; lia. }
  split; [exact H|]. exact (bounds_invariant rect0 bounds_sample H).
Defined.

(** ** Draw and drag sessions are not exclusive *)

(** C2, refuted as stated: with a Draw Session active, [beginDrag] on the
    shape being drawn enters the drag state; and with a drag active and no
    Draw Session, [start] appends a second shape and enters the Draw
    Session. *)
Lemma exclusivity_counterexample :
  let drawingNow := handleMouseDown rect0 1 (onCanvas 100 100) initialState in
  let press := onShape 100 100 0 0 in
  let dragging := handleDragStart press "1" (handleMouseUp drawingNow) in
  (drawing drawingNow = true /\
   dragId (handleDragStart press "1" drawingNow) = Some "1" /\
   handleDragStart press "1" drawingNow <> drawingNow) /\
  (dragId dragging = Some "1" /\ drawing dragging = false /\
   length (elements dragging) = 1%nat /\
   length (elements (handleMouseDown rect0 2 (onCanvas 300 300) dragging))
     = 2%nat /\
   drawing (handleMouseDown rect0 2 (onCanvas 300 300) dragging) = true).
Proof.
  vm_compute. repeat split; try reflexivity.
  intros H. discriminate H.
Qed.

Lemma find_named_Some id (els : list DrawingElement) :
  In id (map El.id els) ->
  exists el, find (fun el => String.eqb (El.id el) id) els = Some el.
Proof.
  induction els as [|el els IH]; simpl; [done|].
  intros [Hid | Hin].
  - exists el. subst id. by rewrite String.eqb_refl.
  - destruct (String.eqb (El.id el) id); [by exists el|]. by apply IH.
Qed.

Lemma find_named_None id (els : list DrawingElement) :
  ~ In id (map El.id els) ->
  find (fun el => String.eqb (El.id el) id) els = None.
Proof.
  induction els as [|el els IH]; simpl; [done|].
  intros Hnot. destruct (String.eqb_spec (El.id el) id) as [Heq|Hne].
  - destruct Hnot. by left.
  - apply IH. intros Hin. apply Hnot. by right.
Qed.

(** C2, amended: neither handler consults the other session, in any
    state.  [beginDrag] on a shape of the collection records the drag
    identifier and the offset and changes nothing else, and returns the
    state as it is when the identifier names no shape; [start] on the
    canvas appends one shape of the current tool at the pointer, of zero
    extent (a line with both ends at the pointer), with the default
    appearance, unselected and named by [Date.now()], sets the drawing
    flag and changes nothing else, and returns the state as it is when the
    target is not the canvas.  So a drag is begun while a Draw Session is
    active, and a shape is started while a drag is active. *)
Theorem sessions_overlap (rect : DOMRect) (now : N) (e : MouseEvent)
    (id d : string) (s : AppState) :
  (id ∈ map El.id (elements s) ->
     handleDragStart e id s =
       {| elements := elements s; currentShape := currentShape s;
          drawing := drawing s; appearance := appearance s;
          dragId := Some id; offset := (offsetX e, offsetY e) |}) /\
  (id ∉ map El.id (elements s) -> handleDragStart e id s = s) /\
  (target_is_canvas e = true ->
     let x := clientX e - Rect.left rect in
     let y := clientY e - Rect.top rect in
     let far v := match currentShape s with line => Some v | _ => None end in
     handleMouseDown rect now e s =
       {| elements :=
            elements s ++
            [El.mk (pretty now) (currentShape s) x y 0 0
                   (a_color (appearance s)) (a_background (appearance s))
                   (a_lineStyle (appearance s)) (a_lineWidth (appearance s))
                   false (far x) (far y)];
          currentShape := currentShape s; drawing := true;
          appearance := appearance s; dragId := dragId s;
          offset := offset s |}) /\
  (target_is_canvas e = false -> handleMouseDown rect now e s = s) /\
  (drawing s = true -> id ∈ map El.id (elements s) ->
     drawing (handleDragStart e id s) = true /\
     dragId (handleDragStart e id s) = Some id) /\
  (dragId s = Some d -> target_is_canvas e = true ->
     drawing (handleMouseDown rect now e s) = true /\
     dragId (handleMouseDown rect now e s) = Some d /\
     length (elements (handleMouseDown rect now e s))
       = S (length (elements s))).
Proof.
  assert (Hknown : id ∈ map El.id (elements s) ->
            handleDragStart e id s =
              {| elements := elements s; currentShape := currentShape s;
                 drawing := drawing s; appearance := appearance s;
                 dragId := Some id; offset := (offsetX e, offsetY e) |}).
  { intros Hin. unfold handleDragStart. apply list_elem_of_In in Hin.
    by destruct (find_named_Some id (elements s) Hin) as [el ->]. }
  assert (Hstart : target_is_canvas e = true ->
            handleMouseDown rect now e s =
              {| elements :=
                   elements s ++
                   [El.mk (pretty now) (currentShape s)
                      (clientX e - Rect.left rect) (clientY e - Rect.top rect)
                      0 0
                      (a_color (appearance s)) (a_background (appearance s))
                      (a_lineStyle (appearance s))
                      (a_lineWidth (appearance s)) false
                      (match currentShape s with
                       | line => Some (clientX e - Rect.left rect)
                       | _ => None
                       end)
                      (match currentShape s with
                       | line => Some (clientY e - Rect.top rect)
                       | _ => None
                       end)];
                 currentShape := currentShape s; drawing := true;
                 appearance := appearance s; dragId := dragId s;
                 offset := offset s |}).
  { intros Ht. unfold handleMouseDown. rewrite Ht. simpl.
    unfold set_drawing, set_elements. simpl.
    by destruct (currentShape s). }
  split; [exact Hknown|]. split; [|split; [exact Hstart|split; [|split]]].
  - intros Hnot. unfold handleDragStart.
    rewrite find_named_None; [done|]. by rewrite <- list_elem_of_In.
  - intros Ht. unfold handleMouseDown. by rewrite Ht.
  - intros Hdraw Hin. rewrite (Hknown Hin). simpl. by rewrite Hdraw.
  - intros Hdrag Ht. rewrite (Hstart Ht). simpl.
    rewrite Hdrag, length_app. simpl. repeat split. lia.
Qed.

Lemma sessions_overlap_witness :
  let drawingNow := handleMouseDown rect0 1 (onCanvas 100 100) initialState in
  let press := onShape 100 100 3 4 in
  let dragging := handleDragStart press "1" (handleMouseUp drawingNow) in
  (drawing drawingNow = true /\
   handleDragStart press "1" drawingNow =
     {| elements := elements drawingNow; currentShape := rectangle;
        drawing := true; appearance := defaultAppearance;
        dragId := Some "1"; offset := (3, 4) |}) /\
  (dragId dragging = Some "1" /\
   drawing (handleMouseDown rect0 2 (onCanvas 300 300) dragging) = true /\
   dragId (handleMouseDown rect0 2 (onCanvas 300 300) dragging) = Some "1" /\
   length (elements (handleMouseDown rect0 2 (onCanvas 300 300) dragging))
     = 2%nat).
Proof.
  intros drawingNow press dragging. split.
  - split; [reflexivity|].
    exact (proj1 (sessions_overlap rect0 1 press "1" "1" drawingNow)
             (list_elem_of_here _ _)).
  - split; [reflexivity|].
    exact (proj2 (proj2 (proj2 (proj2 (proj2
             (sessions_overlap rect0 2 (onCanvas 300 300) "1" "1"
                dragging))))) eq_refl eq_refl).
Defined.

(** ** Dragging a line *)

(** C3, evaluated on the code: a line drawn from (100,10) to (790,10) and
    dragged by its anchor to x = 200 ends at anchor (200,10) and far end
    (800,10).  The far end was stopped by the canvas edge, the anchor was
    not moved back by the residual 90, and the horizontal component fell
    from 690 to 600, although anchor 110 and far end 800 keep it within
    the canvas. *)
Theorem line_drag_not_compensated :
  map (fun el => (El.x el, El.y el, El.x2 el, El.y2 el))
      (elements (run rect0 initialState line_sample))
    = [(200, 10, Some 800, Some 10)] /\
  map (fun el => (El.x el, El.y el, El.x2 el, El.y2 el))
      (elements (run rect0 initialState (removelast line_sample)))
    = [(100, 10, Some 790, Some 10)] /\
  0 <= 110 <= CANVAS_WIDTH /\ 0 <= 110 + 690 <= CANVAS_WIDTH.
Proof. vm_compute. repeat split; congruence. Qed.

(** ** A drag moves, it does not resize *)

Lemma dragElement_undragged d x y el :
  undragged (dragElement d x y el) = undragged el.
Proof.
  destruct (String.eqb (El.id el) d) eqn:Hid;
    [|by rewrite dragElement_other].
  destruct (decide (El.type el = line)) as [Ht|Ht].
  - destruct (El.x2 el) as [ex2|] eqn:Hx2, (El.y2 el) as [ey2|] eqn:Hy2.
    + by rewrite (dragElement_line _ _ _ _ ex2 ey2).
    + rewrite dragElement_line_nofar; auto.
    + rewrite dragElement_line_nofar; auto.
    + rewrite dragElement_line_nofar; auto.
  - by rewrite dragElement_nonline.
Qed.

Lemma handleDragMove_undragged rect e s :
  map undragged (elements (handleDragMove rect e s))
    = map undragged (elements s).
Proof.
  unfold handleDragMove. destruct (dragId s) as [d|]; [|done].
  destruct (String.eqb d ""); [done|]. simpl.
  rewrite map_map. apply map_ext. intros el. apply dragElement_undragged.
Qed.

Lemma dragMoves_undragged rect es : forall s,
  map undragged (elements (run rect s (map dragTo es)))
    = map undragged (elements s).
Proof.
  induction es as [|e es IH]; intros s; [done|].
  unfold run in *. simpl. rewrite IH. apply handleDragMove_undragged.
Qed.

(** C4. Size preservation under drag: from any state, after [beginDrag],
    any sequence of [dragTo] and [endDrag], the collection holds the same
    shapes in the same order with their [width] and [height] fields (and
    identifier, type, appearance and selection) exactly as before. *)
Theorem drag_preserves_size (rect : DOMRect) (s : AppState)
    (e0 : MouseEvent) (id : string) (es : list MouseEvent) :
  let s' := run rect s (beginDrag e0 id :: map dragTo es ++ [endDrag]) in
  map (fun el => (El.width el, El.height el)) (elements s')
    = map (fun el => (El.width el, El.height el)) (elements s) /\
  map undragged (elements s') = map undragged (elements s).
Proof.
  assert (H : map undragged
                (elements
                   (run rect s (beginDrag e0 id :: map dragTo es ++ [endDrag])))
              = map undragged (elements s)).
  { unfold run. simpl. rewrite fold_left_app. simpl.
    fold (run rect (handleDragStart e0 id s) (map dragTo es)).
    rewrite dragMoves_undragged.
    unfold handleDragStart. by destruct (find _ _). }
  simpl. split; [|exact H].
  apply (f_equal (map (fun u => (u.1.1.1.1.1.1.2, u.1.1.1.1.1.2)))) in H.
  rewrite !map_map in H. exact H.
Qed.

(** ** Dragging a rectangle or circle *)

Lemma dragAxis_negative dim x w : w < 0 -> 0 <= dragAxis dim x w + w.
Proof. intros Hw. unfold dragAxis, clamp. boolz; lia. Qed.

Lemma handleDragMove_lookup rect e s d i el :
  dragId s = Some d -> d <> "" -> elements s !! i = Some el ->
  elements (handleDragMove rect e s) !! i =
    Some (dragElement d (clientX e - Rect.left rect - fst (offset s))
                        (clientY e - Rect.top rect - snd (offset s)) el).
Proof.
  intros Hd Hne Hi. unfold handleDragMove. rewrite Hd.
  destruct (String.eqb_spec d "") as [->|_]; [done|]. simpl.
  rewrite list_lookup_fmap, Hi. reflexivity.
Qed.

(** C5. Drag of a rectangle or circle: the candidate origin is the pointer
    minus the stored offset and each axis follows [dragAxis], the extent
    being kept; a negative extent leaves [origin + extent] non-negative.
    The rectangle at (10,10) of extent (50,50) dragged to candidate
    x = -100 gets origin x = 0 and keeps width 50; the circle anchored at
    (300,300) of extent (-40,-40) dragged to the top-left corner gets
    origin (40,40) and keeps its extent. *)
Theorem drag_box_clamp :
  (forall (rect : DOMRect) (e : MouseEvent) (s : AppState) (d : string)
          (i : nat) (el : DrawingElement),
     dragId s = Some d -> d <> "" -> elements s !! i = Some el ->
     El.id el = d -> El.type el <> line ->
     let x := clientX e - Rect.left rect - fst (offset s) in
     let y := clientY e - Rect.top rect - snd (offset s) in
     let newX := dragAxis CANVAS_WIDTH x (El.width el) in
     let newY := dragAxis CANVAS_HEIGHT y (El.height el) in
     elements (handleDragMove rect e s) !! i
       = Some (El.with_pos el newX newY) /\
     (El.width el < 0 -> 0 <= newX + El.width el) /\
     (El.height el < 0 -> 0 <= newY + El.height el)) /\
  map (fun el => (El.x el, El.y el, El.width el, El.height el))
      (elements (run rect0 initialState box_sample))
    = [(10, 10, 50, 50)] /\
  map (fun el => (El.x el, El.y el, El.width el, El.height el))
      (elements (run rect0 initialState
                   (box_sample ++ [dragTo (onShape (-95) 20 0 0)])))
    = [(0, 15, 50, 50)] /\
  map (fun el => (El.x el, El.y el, El.width el, El.height el))
      (elements (run rect0 initialState disc_sample))
    = [(300, 300, -40, -40)] /\
  map (fun el => (El.x el, El.y el, El.width el, El.height el))
      (elements (run rect0 initialState
                   (disc_sample ++ [dragTo (onCanvas 0 0)])))
    = [(40, 40, -40, -40)].
Proof.
  split; [|by vm_compute].
  intros rect e s d i el Hd Hne Hi Hid Ht x y newX newY.
  split; [|split; apply dragAxis_negative].
  rewrite (handleDragMove_lookup rect e s d i el Hd Hne Hi).
  rewrite dragElement_nonline; [done| |done].
  subst d. apply String.eqb_refl.
Qed.

Lemma drag_box_clamp_witness :
  let s := run rect0 initialState box_sample in
  elements (handleDragMove rect0 (onShape (-95) 20 0 0) s) !! 0%nat
    = Some (El.mk "1" rectangle 0 15 50 50 "#000000" "#ffffff" solid 2
                  false None None).
Proof.
  intros s.
  destruct drag_box_clamp as [H _].
  destruct (H rect0 (onShape (-95) 20 0 0) s "1" 0%nat
              (El.mk "1" rectangle 10 10 50 50 "#000000" "#ffffff" solid 2
                     false None None)) as [H1 _];
    [reflexivity | discriminate | reflexivity | reflexivity | discriminate |].
  exact H1.
Defined.

(** ** Sizing the shape being drawn *)

(** C6. [update] in an active Draw Session clamps the pointer to the
    canvas and rewrites only the last shape: a line gets the clamped
    pointer as far end and keeps its start; a rectangle or circle gets the
    signed extent from its anchor to the clamped pointer, far edge capped
    first and near edge floored second ([clampExtentAxis]), and keeps its
    anchor.  [start] of a rectangle at (100,100) then [update] to (50,50)
    gives extent (-50,-50) at anchor (100,100), kept by [commit]; [start]
    of a line at (790,10) then [update] to (850,10) gives far end (800,10)
    and start (790,10). *)
Theorem update_sizes_last :
  (forall (rect : DOMRect) (e : MouseEvent) (s : AppState)
          (prev : list DrawingElement) (lst : DrawingElement),
     drawing s = true -> elements s = prev ++ [lst] ->
     let x := clamp (clientX e - Rect.left rect) 0 CANVAS_WIDTH in
     let y := clamp (clientY e - Rect.top rect) 0 CANVAS_HEIGHT in
     exists lst',
       elements (handleMouseMove rect e s) = prev ++ [lst'] /\
       El.x lst' = El.x lst /\ El.y lst' = El.y lst /\
       lst' =
         match El.type lst with
         | line => El.with_far lst x y
         | _ =>
             El.with_extent lst (clampExtentAxis CANVAS_WIDTH (El.x lst) x)
                                (clampExtentAxis CANVAS_HEIGHT (El.y lst) y)
         end) /\
  map (fun el => (El.type el, El.x el, El.y el, El.width el, El.height el))
      (elements (run rect0 initialState rectangle_sample))
    = [(rectangle, 100, 100, -50, -50)] /\
  elements (run rect0 initialState (rectangle_sample ++ [commit]))
    = elements (run rect0 initialState rectangle_sample) /\
  map (fun el => (El.type el, El.x el, El.y el, El.x2 el, El.y2 el))
      (elements (run rect0 initialState edge_line_sample))
    = [(line, 790, 10, Some 800, Some 10)].
Proof.
  split; [|by vm_compute].
  intros rect e s prev lst Hdraw Hels x y.
  unfold handleMouseMove. rewrite Hdraw, Hels. simpl.
  rewrite moveLast_snoc. eexists. split; [reflexivity|].
  destruct (El.type lst); [done..|]. by rewrite !clamp_idem.
Qed.

Lemma update_sizes_last_witness :
  let s := handleMouseDown rect0 1 (onCanvas 100 100) initialState in
  exists lst',
    elements (handleMouseMove rect0 (onCanvas 50 50) s) = [] ++ [lst'] /\
    El.x lst' = 100 /\ El.y lst' = 100 /\
    lst' = El.mk "1" rectangle 100 100 (-50) (-50) "#000000" "#ffffff"
                 solid 2 false None None.
Proof.
  intros s. destruct update_sizes_last as [H _].
  exact (H rect0 (onCanvas 50 50) s []
           (El.mk "1" rectangle 100 100 0 0 "#000000" "#ffffff" solid 2
                  false None None) eq_refl eq_refl).
Defined.

(** ** Selection *)

(** C7, refuted as stated: on a non-empty collection [selectAt] of an
    identifier that names no shape leaves no shape selected, and on a
    collection in which two shapes were started at the same [Date.now()]
    it selects both. *)
Lemma selection_counterexample :
  (length (elements pair_sample) = 2%nat /\
   count_selected (elements (handleSelect "3" pair_sample)) = 0%nat) /\
  (map El.id (elements twin_sample) = ["7"; "7"] /\
   count_selected (elements (handleSelect "7" twin_sample)) = 2%nat).
Proof. by vm_compute. Qed.

Lemma count_selected_handleSelect id s :
  count_selected (elements (handleSelect id s))
    = count_named id (elements s).
Proof.
  unfold count_selected, count_named, handleSelect. simpl.
  induction (elements s) as [|el els IH]; [done|].
  cbn [map]. rewrite !filter_cons. simpl.
  destruct (String.eqb_spec (El.id el) id) as [Heq|Hne].
  - rewrite !decide_True by done. simpl. by rewrite IH.
  - rewrite decide_False by done. rewrite decide_False by done. exact IH.
Qed.

Lemma count_named_notin id (els : list DrawingElement) :
  ~ In id (map El.id els) -> count_named id els = 0%nat.
Proof.
  unfold count_named. induction els as [|el els IH]; [done|].
  simpl. intros Hnot. rewrite filter_cons.
  rewrite decide_False by (intros Heq; apply Hnot; by left).
  apply IH. intros Hin. apply Hnot. by right.
Qed.

Lemma count_named_NoDup id (els : list DrawingElement) :
  NoDup (map El.id els) -> In id (map El.id els) ->
  count_named id els = 1%nat.
Proof.
  unfold count_named. induction els as [|el els IH]; [done|].
  cbn [map]. intros Hnd Hin. apply NoDup_cons in Hnd as [Hfresh Hnd].
  rewrite filter_cons. destruct (decide (El.id el = id)) as [Heq|Hne].
  - simpl. f_equal. apply count_named_notin. rewrite <- Heq.
    by rewrite <- list_elem_of_In.
  - apply IH; [done|]. by destruct Hin.
Qed.

(** C7, amended: on every collection [selectAt id] sets [selected] to
    true on the shapes whose identifier is [id] and to false on all
    others, and changes no other attribute and nothing else of the
    state, so that afterwards as many shapes are selected as are named
    [id]; when the identifiers of the collection are pairwise distinct,
    afterwards exactly one shape is selected if [id] names a shape of the
    collection and none otherwise, so at most one. *)
Theorem select_marks_named (id : string) (s : AppState) :
  handleSelect id s =
    set_elements s
      (map (fun el => El.with_selected el (bool_decide (El.id el = id)))
           (elements s)) /\
  count_selected (elements (handleSelect id s))
    = count_named id (elements s) /\
  (NoDup (map El.id (elements s)) ->
     count_selected (elements (handleSelect id s))
       = (if decide (id ∈ map El.id (elements s)) then 1 else 0)%nat /\
     (count_selected (elements (handleSelect id s)) <= 1)%nat).
Proof.
  split; [|split].
  - unfold handleSelect. f_equal. apply map_ext. intros el.
    f_equal. destruct (String.eqb_spec (El.id el) id) as [Heq|Hne].
    + by rewrite bool_decide_eq_true_2.
    + by rewrite bool_decide_eq_false_2.
  - apply count_selected_handleSelect.
  - intros Hnd.
    assert (Hcount : count_selected (elements (handleSelect id s))
              = (if decide (id ∈ map El.id (elements s))
                 then 1 else 0)%nat).
    { rewrite count_selected_handleSelect.
      destruct (decide _) as [Hin|Hnot].
      - apply count_named_NoDup; [done|]. by apply list_elem_of_In.
      - apply count_named_notin. by rewrite <- list_elem_of_In. }
    split; [exact Hcount|]. rewrite Hcount. destruct (decide _); lia.
Qed.

Lemma select_marks_named_witness :
  NoDup (map El.id (elements pair_sample)) /\
  count_selected (elements (handleSelect "2" pair_sample)) = 1%nat /\
  count_selected (elements (handleSelect "3" pair_sample)) = 0%nat /\
  count_selected (elements (handleSelect "7" twin_sample))
    = count_named "7" (elements twin_sample).
Proof.
  assert (Hnd : NoDup (map El.id (elements pair_sample))).
  { vm_compute. apply NoDup_cons_2; [|apply NoDup_singleton].
    intros Hin. apply list_elem_of_singleton in Hin. discriminate Hin. }
  split; [exact Hnd|]. split; [|split].
  - exact (proj1 (proj2 (proj2 (select_marks_named "2" pair_sample)) Hnd)).
  - exact (proj1 (proj2 (proj2 (select_marks_named "3" pair_sample)) Hnd)).
  - exact (proj1 (proj2 (select_marks_named "7" twin_sample))).
Defined.

(** C10. [selectAt] of an identifier that names no shape of the
    collection is defined and sets [selected] to false on every shape: an
    existing selection is cleared, the collection keeps its shapes, and a
    non-empty collection is left with no selected shape. *)
Theorem select_unknown_clears (id : string) (s : AppState) :
  id ∉ map El.id (elements s) ->
  elements (handleSelect id s)
    = map (fun el => El.with_selected el false) (elements s) /\
  Forall (fun el => El.selected el = false) (elements (handleSelect id s)) /\
  count_selected (elements (handleSelect id s)) = 0%nat /\
  length (elements (handleSelect id s)) = length (elements s).
Proof.
  intros Hnot. rewrite list_elem_of_In in Hnot.
  assert (Heq : elements (handleSelect id s)
                  = map (fun el => El.with_selected el false) (elements s)).
  { unfold handleSelect. simpl.
    induction (elements s) as [|el els IH]; [done|].
    cbn [map] in *. f_equal.
    - destruct (String.eqb_spec (El.id el) id) as [Hid|_]; [|done].
      destruct Hnot. by left.
    - apply IH. intros Hin. apply Hnot. by right. }
  split; [exact Heq|]. split; [|split].
  - rewrite Heq. apply Forall_fmap. by apply Forall_true.
  - rewrite count_selected_handleSelect. by apply count_named_notin.
  - rewrite Heq. apply length_map.
Qed.

Lemma select_unknown_clears_witness :
  let s := handleSelect "1" pair_sample in
  count_selected (elements s) = 1%nat /\
  length (elements (handleSelect "3" s)) = 2%nat /\
  count_selected (elements (handleSelect "3" s)) = 0%nat.
Proof.
  intros s.
  assert (Hnot : "3" ∉ map El.id (elements s)).
  { rewrite list_elem_of_In. vm_compute. intros [H|[H|[]]]; discriminate H. }
  destruct (select_unknown_clears "3" s Hnot) as (_ & _ & H0 & Hlen).
  split; [reflexivity|]. split; [exact Hlen | exact H0].
Defined.

(** ** Pointer moves outside a session *)

(** C9. With no drag active ([dragId] null, or the falsy empty string)
    [dragTo] returns the state as it is; with no Draw Session active
    [update] returns the state as it is; and on the empty collection
    [update] leaves the collection empty whatever the session flag. *)
Theorem stray_moves_ignored (rect : DOMRect) (e : MouseEvent)
    (s : AppState) :
  (falsy (dragId s) = true -> handleDragMove rect e s = s) /\
  (drawing s = false -> handleMouseMove rect e s = s) /\
  (elements s = [] -> elements (handleMouseMove rect e s) = []).
Proof.
  split; [|split].
  - unfold falsy, handleDragMove.
    destruct (dragId s) as [d|]; [|done]. by intros ->.
  - unfold handleMouseMove. by intros ->.
  - unfold handleMouseMove. intros Hels.
    destruct (drawing s); simpl; [|done]. by rewrite Hels.
Qed.

Lemma stray_moves_ignored_witness :
  handleDragMove rect0 (onCanvas 400 300) pair_sample = pair_sample /\
  handleMouseMove rect0 (onCanvas 400 300) pair_sample = pair_sample /\
  elements (handleMouseMove rect0 (onCanvas 400 300) initialState) = [].
Proof.
  split; [|split].
  - exact (proj1 (stray_moves_ignored rect0 (onCanvas 400 300)
                    pair_sample) eq_refl).
  - exact (proj1 (proj2 (stray_moves_ignored rect0 (onCanvas 400 300)
                           pair_sample)) eq_refl).
  - exact (proj2 (proj2 (stray_moves_ignored rect0 (onCanvas 400 300)
                           initialState)) eq_refl).
Defined.

(** ** Save and load *)

Lemma elementOfJSON_elementToJSON el :
  elementOfJSON (elementToJSON el) = Some el.
Proof.
  destruct el as [id type x y w h c b ls lw sel x2 y2].
  destruct type, ls, x2, y2; reflexivity.
Qed.

Lemma elementsOfJSON_elementsToJSON els :
  elementsOfJSON (elementsToJSON els) = Some els.
Proof.
  unfold elementsOfJSON, elementsToJSON.
  apply mapM_fmap_Some. exact elementOfJSON_elementToJSON.
Qed.

Lemma printedAs_elementToJSON els :
  printedAs (map elementToJSON els) els = true.
Proof.
  unfold printedAs. induction els as [|el els IH]; [done|].
  cbn [map zip zip_with forallb fst snd].
  rewrite Nat.eqb_refl. exact IH.
Qed.

Lemma typedElements_elementsToJSON els :
  typedElements (elementsToJSON els) = Some els.
Proof.
  unfold typedElements. rewrite elementsOfJSON_elementsToJSON.
  unfold elementsToJSON. simpl. by rewrite printedAs_elementToJSON.
Qed.

(** C8. Round trip: whatever the stored drawings were, [load] right after
    [save] succeeds and installs a collection equal to the saved one, the
    same shapes with the same attribute values in the same order; loaded
    into the state that was saved it gives that state back. *)
Theorem save_load_roundtrip `{JSONTextLaws Blob} (s s0 : AppState)
    (localStorage : gmap string Blob) :
  handleLoad (handleSave s localStorage) s0
    = Loaded (set_elements s0 (elements s)) /\
  handleLoad (handleSave s localStorage) s = Loaded s.
Proof.
  assert (Hload : forall s1,
            handleLoad (handleSave s localStorage) s1
              = Loaded (set_elements s1 (elements s))).
  { intros s1. unfold handleLoad, handleSave.
    rewrite lookup_insert_eq, stringify_nonempty, parse_stringify.
    by rewrite typedElements_elementsToJSON. }
  split; [apply Hload|]. rewrite Hload. by destruct s.
Qed.

Lemma save_load_roundtrip_witness :
  map (fun el => (El.type el, El.width el, El.height el, El.selected el))
      (elements gallery_sample)
    = [(rectangle, -50, -50, false); (circle, 40, 50, false);
       (line, 0, 0, true)] /\
  @handleLoad json treeText (@handleSave json treeText gallery_sample ∅)
      gallery_sample
    = Loaded gallery_sample.
Proof.
  split; [reflexivity|].
  exact (proj2 (@save_load_roundtrip json treeText
                  (Build_JSONTextLaws json treeText
                     (fun j => eq_refl) (fun j => eq_refl))
                  gallery_sample initialState ∅)).
Defined.

(** * Further properties of the handlers *)

(** ** Drawing *)

Lemma moveLast_moveLast x1 y1 x2 y2 prev :
  moveLast x2 y2 (moveLast x1 y1 prev) = moveLast x2 y2 prev.
Proof.
  destruct (last prev) as [lst|] eqn:Hlast.
  - apply last_Some in Hlast as [l' ->].
    rewrite (moveLast_snoc x1 y1), !moveLast_snoc.
    f_equal. f_equal. by destruct (El.type lst) eqn:Ht; simpl; rewrite ?Ht.
  - unfold moveLast at 2. by rewrite Hlast.
Qed.

(** X1. While a shape is being drawn only the latest pointer position
    counts: two updates in a row leave the state the second one alone
    would have left, so repeating an update changes nothing. *)
Theorem update_last_wins (rect : DOMRect) (e1 e2 : MouseEvent)
    (s : AppState) :
  handleMouseMove rect e2 (handleMouseMove rect e1 s)
    = handleMouseMove rect e2 s.
Proof.
  unfold handleMouseMove. destruct (drawing s) eqn:Hd; simpl.
  - rewrite Hd. simpl. unfold set_elements. simpl.
    by rewrite moveLast_moveLast.
  - by rewrite Hd.
Qed.

Lemma clampExtentAxis_exact dim anchor far :
  0 <= anchor <= dim -> 0 <= far <= dim ->
  anchor + clampExtentAxis dim anchor far = far.
Proof.
  intros Ha Hf. rewrite <- clamp_is_clampExtentAxis. unfold clamp. lia.
Qed.

(** X2. While a shape whose anchor is on the canvas is being drawn, an
    update puts its free end exactly on the pointer clamped to the canvas:
    the far end of a line, the corner [anchor + extent] of a rectangle or
    circle. *)
Theorem update_tracks_pointer (rect : DOMRect) (e : MouseEvent)
    (s : AppState) (prev : list DrawingElement) (lst : DrawingElement) :
  drawing s = true -> elements s = prev ++ [lst] ->
  0 <= El.x lst <= CANVAS_WIDTH -> 0 <= El.y lst <= CANVAS_HEIGHT ->
  let px := clamp (clientX e - Rect.left rect) 0 CANVAS_WIDTH in
  let py := clamp (clientY e - Rect.top rect) 0 CANVAS_HEIGHT in
  exists lst',
    elements (handleMouseMove rect e s) = prev ++ [lst'] /\
    match El.type lst with
    | line => El.x2 lst' = Some px /\ El.y2 lst' = Some py
    | _ => El.x lst' + El.width lst' = px /\ El.y lst' + El.height lst' = py
    end.
Proof.
  intros Hd Hels Hx Hy px py.
  unfold handleMouseMove. rewrite Hd, Hels. simpl.
  rewrite moveLast_snoc. eexists. split; [reflexivity|].
  assert (0 <= px <= CANVAS_WIDTH) by (apply clamp_range; by compute).
  assert (0 <= py <= CANVAS_HEIGHT) by (apply clamp_range; by compute).
  destruct (El.type lst); cbn [El.x El.y El.width El.height El.x2 El.y2
                              El.with_extent El.with_far].
  - split; by apply clampExtentAxis_exact.
  - split; by apply clampExtentAxis_exact.
  - subst px py. by rewrite !clamp_idem.
Qed.

Lemma update_tracks_pointer_witness :
  let s := run rect0 initialState [ start circle 1 (onCanvas 700 500) ] in
  exists lst',
    elements (handleMouseMove rect0 (onCanvas 900 (-30)) s) = [] ++ [lst'] /\
    El.x lst' + El.width lst' = 800 /\ El.y lst' + El.height lst' = 0.
Proof.
  intros s.
  refine (update_tracks_pointer rect0 (onCanvas 900 (-30)) s []
            (El.mk "1" circle 700 500 0 0 "#000000" "#ffffff" solid 2
                   false None None) eq_refl eq_refl _ _);
    simpl; unfold CANVAS_WIDTH, CANVAS_HEIGHT; lia.
Defined.

(** ** Dragging *)

Lemma dragElement_idem d x y el :
  dragElement d x y (dragElement d x y el) = dragElement d x y el.
Proof.
  destruct (String.eqb (El.id el) d) eqn:Hid;
    [|by rewrite !dragElement_other by (by rewrite ?dragElement_other)].
  destruct (decide (El.type el = line)) as [Ht|Ht].
  - destruct (El.x2 el) as [ex2|] eqn:Hx2, (El.y2 el) as [ey2|] eqn:Hy2.
    + rewrite (dragElement_line _ _ _ el ex2 ey2) by done. cbv zeta.
      erewrite dragElement_line; [|done|done|reflexivity|reflexivity].
      cbv zeta. simpl. rewrite !Z.sub_diag, !Z.add_0_r, !clamp_idem.
      reflexivity.
    + rewrite (dragElement_line_nofar _ _ _ el) by (rewrite ?Hx2, ?Hy2; auto).
      rewrite dragElement_line_nofar; [done|done|done|].
      simpl. auto.
    + rewrite (dragElement_line_nofar _ _ _ el) by (rewrite ?Hx2, ?Hy2; auto).
      rewrite dragElement_line_nofar; [done|done|done|].
      simpl. auto.
    + rewrite (dragElement_line_nofar _ _ _ el) by (rewrite ?Hx2, ?Hy2; auto).
      rewrite dragElement_line_nofar; [done|done|done|].
      simpl. auto.
  - rewrite (dragElement_nonline _ _ _ el) by done.
    by rewrite dragElement_nonline.
Qed.

Lemma handleDragMove_idem rect e s :
  handleDragMove rect e (handleDragMove rect e s) = handleDragMove rect e s.
Proof.
  unfold handleDragMove. destruct (dragId s) as [d|] eqn:Hd; [|by rewrite Hd].
  destruct (String.eqb d "") eqn:Hempty; simpl; rewrite ?Hd, ?Hempty; [done|].
  unfold set_elements. simpl. f_equal.
  rewrite map_map. apply map_ext. intros el. apply dragElement_idem.
Qed.

(** X3. A drag move is idempotent, so the move over a shape, which runs
    [handleDragMove] on the shape and then, by bubbling, the handler of
    the canvas, has outside a Draw Session the effect of a single
    [handleDragMove]. *)
Theorem drag_move_once (rect : DOMRect) (e : MouseEvent) (s : AppState) :
  handleDragMove rect e (handleDragMove rect e s) = handleDragMove rect e s /\
  (drawing s = false -> shapeMouseMove rect e s = handleDragMove rect e s).
Proof.
  split; [apply handleDragMove_idem|].
  intros Hd. unfold shapeMouseMove, canvasMoveHandler. rewrite Hd.
  destruct (falsy (dragId s)); simpl; [done|]. apply handleDragMove_idem.
Qed.

Lemma drag_move_once_witness :
  let s := run rect0 initialState line_sample in
  shapeMouseMove rect0 (onShape 750 300 0 0) s
    = handleDragMove rect0 (onShape 750 300 0 0) s.
Proof.
  intros s.
  exact (proj2 (drag_move_once rect0 (onShape 750 300 0 0) s) eq_refl).
Defined.

Lemma dragAxis_exact dim x w :
  0 <= x <= dim -> 0 <= x + w <= dim -> dragAxis dim x w = x.
Proof.
  intros Hx Hxw. unfold dragAxis, clamp. rewrite Z.geb_leb.
  destruct (Z.leb_spec 0 w); [lia|].
  destruct (Z.ltb_spec (Z.max 0 (Z.min dim x) + w) 0); lia.
Qed.

(** X4. A rectangle or circle dragged to a place where it fits goes
    exactly there: when the pointer minus the grab offset is an origin at
    which the footprint lies within the canvas, that origin is the new
    position. *)
Theorem drag_box_follows_pointer (rect : DOMRect) (e : MouseEvent)
    (s : AppState) (d : string) (i : nat) (el : DrawingElement) :
  dragId s = Some d -> d <> "" -> elements s !! i = Some el ->
  El.id el = d -> El.type el <> line ->
  let x := clientX e - Rect.left rect - fst (offset s) in
  let y := clientY e - Rect.top rect - snd (offset s) in
  within_canvas (El.with_pos el x y) ->
  elements (handleDragMove rect e s) !! i = Some (El.with_pos el x y).
Proof.
  intros Hd Hne Hi Hid Ht x y Hfit.
  rewrite (handleDragMove_lookup rect e s d i el Hd Hne Hi). fold x y.
  rewrite dragElement_nonline; [| subst d; apply String.eqb_refl | done].
  apply within_canvas_box in Hfit as [[Hx Hxw] [Hy Hyh]]; [|done].
  simpl in *. by rewrite !dragAxis_exact.
Qed.

Lemma drag_box_follows_pointer_witness :
  let s := run rect0 initialState box_sample in
  elements (handleDragMove rect0 (onShape 405 305 0 0) s) !! 0%nat
    = Some (El.mk "1" rectangle 400 300 50 50 "#000000" "#ffffff" solid 2
                  false None None).
Proof.
  intros s.
  refine (drag_box_follows_pointer rect0 (onShape 405 305 0 0) s "1" 0%nat
            (El.mk "1" rectangle 10 10 50 50 "#000000" "#ffffff" solid 2
                   false None None) eq_refl _ eq_refl eq_refl _ _);
    [discriminate | discriminate |].
  apply within_canvas_box; [discriminate|].
  simpl. unfold CANVAS_WIDTH, CANVAS_HEIGHT. lia.
Defined.

(** X5. A line dragged to a place where it fits is translated: when the
    pointer minus the grab offset is an anchor on the canvas and the far
    end moved by the same amount is on the canvas too, both ends move by
    that amount and the vector between them is kept. *)
Theorem drag_line_translates (rect : DOMRect) (e : MouseEvent)
    (s : AppState) (d : string) (i : nat) (el : DrawingElement)
    (ex2 ey2 : Z) :
  dragId s = Some d -> d <> "" -> elements s !! i = Some el ->
  El.id el = d -> El.type el = line ->
  El.x2 el = Some ex2 -> El.y2 el = Some ey2 ->
  let x := clientX e - Rect.left rect - fst (offset s) in
  let y := clientY e - Rect.top rect - snd (offset s) in
  0 <= x <= CANVAS_WIDTH -> 0 <= y <= CANVAS_HEIGHT ->
  0 <= ex2 + (x - El.x el) <= CANVAS_WIDTH ->
  0 <= ey2 + (y - El.y el) <= CANVAS_HEIGHT ->
  exists el',
    elements (handleDragMove rect e s) !! i = Some el' /\
    El.x el' = x /\ El.y el' = y /\
    El.x2 el' = Some (ex2 + (x - El.x el)) /\
    El.y2 el' = Some (ey2 + (y - El.y el)) /\
    farX el' - El.x el' = farX el - El.x el /\
    farY el' - El.y el' = farY el - El.y el.
Proof.
  intros Hd Hne Hi Hid Ht Hx2 Hy2 x y Hx Hy Hfx Hfy.
  rewrite (handleDragMove_lookup rect e s d i el Hd Hne Hi). fold x y.
  rewrite (dragElement_line _ _ _ _ ex2 ey2);
    [| subst d; apply String.eqb_refl | done..].
  eexists. split; [reflexivity|]. cbv zeta. unfold farX, farY. simpl.
  rewrite Hx2, Hy2. simpl.
  assert (Hcx : clamp x 0 CANVAS_WIDTH = x) by (unfold clamp; lia).
  assert (Hcy : clamp y 0 CANVAS_HEIGHT = y) by (unfold clamp; lia).
  rewrite Hcx, Hcy.
  assert (Hfx' : clamp (ex2 + (x - El.x el)) 0 CANVAS_WIDTH
                   = ex2 + (x - El.x el)) by (unfold clamp; lia).
  assert (Hfy' : clamp (ey2 + (y - El.y el)) 0 CANVAS_HEIGHT
                   = ey2 + (y - El.y el)) by (unfold clamp; lia).
  rewrite Hfx', Hfy'. repeat split; lia.
Qed.

Lemma drag_line_translates_witness :
  let s := run rect0 initialState (removelast line_sample) in
  exists el',
    elements (handleDragMove rect0 (onShape 105 300 0 0) s) !! 0%nat
      = Some el' /\
    El.x el' = 105 /\ El.y el' = 300 /\
    El.x2 el' = Some 795 /\ El.y2 el' = Some 300.
Proof.
  intros s.
  destruct (drag_line_translates rect0 (onShape 105 300 0 0) s "1" 0%nat
              (El.mk "1" line 100 10 0 0 "#000000" "#ffffff" solid 2
                     false (Some 790) (Some 10)) 790 10)
    as (el' & H1 & H2 & H3 & H4 & H5 & _);
    try reflexivity; try discriminate;
    try (simpl; unfold CANVAS_WIDTH, CANVAS_HEIGHT; lia).
  exists el'. repeat split; assumption.
Defined.

(** X6. A drag move touches no shape but the dragged one: every shape
    with another identifier stays as it is, at the same place in the
    collection, and the collection keeps its length. *)
Theorem drag_leaves_others (rect : DOMRect) (e : MouseEvent) (s : AppState)
    (d : string) (i : nat) (el : DrawingElement) :
  dragId s = Some d -> elements s !! i = Some el -> El.id el <> d ->
  elements (handleDragMove rect e s) !! i = Some el /\
  length (elements (handleDragMove rect e s)) = length (elements s).
Proof.
  intros Hd Hi Hid. unfold handleDragMove. rewrite Hd.
  destruct (String.eqb d ""); [done|]. simpl.
  rewrite list_lookup_fmap, Hi, length_map. simpl. split; [|done].
  f_equal. apply dragElement_other. by apply String.eqb_neq.
Qed.

Lemma drag_leaves_others_witness :
  let s := handleDragStart (onShape 300 300 0 0) "2" pair_sample in
  elements (handleDragMove rect0 (onCanvas 10 10) s) !! 0%nat
    = elements s !! 0%nat /\
  length (elements (handleDragMove rect0 (onCanvas 10 10) s)) = 2%nat.
Proof.
  intros s.
  refine (drag_leaves_others rect0 (onCanvas 10 10) s "2" 0%nat
            (El.mk "1" rectangle 100 100 0 0 "#000000" "#ffffff" solid 2
                   false None None) eq_refl eq_refl _).
  discriminate.
Defined.

(** X7. A press that names a shape not in the collection starts no drag:
    the state is returned as it is, whatever drag was recorded before. *)
Theorem beginDrag_unknown (e : MouseEvent) (id : string) (s : AppState) :
  id ∉ map El.id (elements s) -> handleDragStart e id s = s.
Proof.
  intros Hnot. unfold handleDragStart.
  rewrite find_named_None; [done|]. by rewrite <- list_elem_of_In.
Qed.

Lemma beginDrag_unknown_witness :
  handleDragStart (onShape 5 5 0 0) "9" pair_sample = pair_sample.
Proof.
  apply beginDrag_unknown. rewrite list_elem_of_In.
  vm_compute. intros [H|[H|[]]]; discriminate H.
Defined.

(** ** Selection *)

(** X8. The latest selection wins: selecting [b] after [a] leaves the
    state that selecting [b] alone would have left, so selecting the same
    shape again changes nothing. *)
Theorem select_last_wins (a b : string) (s : AppState) :
  handleSelect b (handleSelect a s) = handleSelect b s.
Proof.
  unfold handleSelect, set_elements. simpl. f_equal.
  rewrite map_map. apply map_ext. intros el. reflexivity.
Qed.

(** ** Appearance *)

Lemma footprint_El_with c el : footprint (El_with c el) = footprint el.
Proof. by destruct c. Qed.

(** X9. An appearance change reaches the selected shapes only.  A shape
    that is not selected stays as it is; a selected shape takes the new
    value in the edited attribute and keeps its other appearance
    attributes, its identifier, kind, geometry and selection; and the
    default appearance takes the new value too. *)
Theorem appearance_reaches_selected (c : AppearanceEdit) (s : AppState)
    (i : nat) (el : DrawingElement) :
  elements s !! i = Some el ->
  let s' := handleAppearanceChange c s in
  appearance s' = Appearance_with c (appearance s) /\
  (El.selected el = false -> elements s' !! i = Some el) /\
  (El.selected el = true ->
     exists el',
       elements s' !! i = Some el' /\
       elementAppearance el' = Appearance_with c (elementAppearance el) /\
       El.id el' = El.id el /\ El.type el' = El.type el /\
       El.selected el' = true /\
       (El.x el', El.y el', El.width el', El.height el', El.x2 el', El.y2 el')
         = (El.x el, El.y el, El.width el, El.height el, El.x2 el, El.y2 el)).
Proof.
  intros Hi s'. subst s'. unfold handleAppearanceChange. simpl.
  rewrite list_lookup_fmap, Hi. simpl. split; [done|]. split.
  - by intros ->.
  - intros Hsel. rewrite Hsel. eexists. split; [reflexivity|].
    by destruct c.
Qed.

Lemma appearance_reaches_selected_witness :
  let s := handleAppearanceChange (edit_lineWidth 7) gallery_sample in
  map El.lineWidth (elements s) = [2; 2; 7] /\
  elements s !! 0%nat = elements gallery_sample !! 0%nat /\
  a_lineWidth (appearance s) = 7.
Proof.
  intros s.
  destruct (appearance_reaches_selected (edit_lineWidth 7) gallery_sample
              0%nat
              (El.mk "1" rectangle 100 100 (-50) (-50) "#000000" "#ffffff"
                     solid 2 false None None) eq_refl)
    as (Ha & Hkeep & _).
  split; [reflexivity|]. split; [exact (Hkeep eq_refl)|].
  fold s in Ha. by rewrite Ha.
Defined.

(** X10. With no shape selected an appearance change leaves the whole
    collection as it is; only the default for the shapes to come
    changes. *)
Theorem appearance_none_selected (c : AppearanceEdit) (s : AppState) :
  count_selected (elements s) = 0%nat ->
  elements (handleAppearanceChange c s) = elements s.
Proof.
  unfold handleAppearanceChange, count_selected. simpl.
  induction (elements s) as [|el els IH]; [done|].
  rewrite filter_cons. cbn [map].
  destruct (El.selected el) eqn:Hsel.
  - rewrite decide_True by done. discriminate.
  - rewrite decide_False by done. intros H0. by rewrite IH.
Qed.

Lemma appearance_none_selected_witness :
  elements (handleAppearanceChange (edit_color "#ff0000") pair_sample)
    = elements pair_sample.
Proof. exact (appearance_none_selected _ pair_sample eq_refl). Defined.

(** X11. The shape started after an appearance change is created with
    the changed default appearance, and unselected. *)
Theorem new_shape_takes_default (rect : DOMRect) (now : N) (e : MouseEvent)
    (c : AppearanceEdit) (s : AppState) :
  target_is_canvas e = true ->
  exists el,
    last (elements (handleMouseDown rect now e (handleAppearanceChange c s)))
      = Some el /\
    elementAppearance el = Appearance_with c (appearance s) /\
    El.selected el = false.
Proof.
  intros Ht. unfold handleMouseDown. rewrite Ht. simpl.
  rewrite last_snoc. eexists. split; [reflexivity|].
  by destruct (currentShape s), c.
Qed.

Lemma new_shape_takes_default_witness :
  exists el,
    last (elements (handleMouseDown rect0 9 (onCanvas 5 5)
                      (handleAppearanceChange (edit_lineStyle dashed)
                         pair_sample)))
      = Some el /\
    elementAppearance el
      = {| a_color := "#000000"; a_background := "#ffffff";
           a_lineStyle := dashed; a_lineWidth := 2 |} /\
    El.selected el = false.
Proof.
  exact (new_shape_takes_default rect0 9 (onCanvas 5 5)
           (edit_lineStyle dashed) pair_sample eq_refl).
Defined.

(** ** Whole sessions *)

(** [moveLast] keeps every attribute that neither an extent nor a far end
    is part of. *)
Lemma moveLast_map {A} (f : DrawingElement -> A) x y prev :
  (forall el w h, f (El.with_extent el w h) = f el) ->
  (forall el a b, f (El.with_far el a b) = f el) ->
  map f (moveLast x y prev) = map f prev.
Proof.
  intros Hext Hfar.
  destruct (last prev) as [lst|] eqn:Hlast;
    [|unfold moveLast; by rewrite Hlast].
  apply last_Some in Hlast as [l' ->]. rewrite moveLast_snoc.
  rewrite !map_app. f_equal. cbn [map]. f_equal.
  by destruct (El.type lst).
Qed.

Lemma dragElement_id d x y el : El.id (dragElement d x y el) = El.id el.
Proof.
  exact (f_equal (fun u => u.1.1.1.1.1.1.1.1) (dragElement_undragged d x y el)).
Qed.

Lemma dragElement_selected d x y el :
  El.selected (dragElement d x y el) = El.selected el.
Proof. exact (f_equal snd (dragElement_undragged d x y el)). Qed.

Lemma handleDragMove_map {A} (f : DrawingElement -> A) rect e s :
  (forall d x y el, f (dragElement d x y el) = f el) ->
  map f (elements (handleDragMove rect e s)) = map f (elements s).
Proof.
  intros Hf. unfold handleDragMove. destruct (dragId s) as [d|]; [|done].
  destruct (String.eqb d ""); [done|]. simpl.
  rewrite map_map. apply map_ext. intros el. apply Hf.
Qed.

(** What an action does to the identifiers, appearance apart: all but
    a pointer-down on the canvas keep the list, which adds one at the
    end. *)
Lemma perform_ids rect s a :
  map El.id (elements (perform rect s a))
    = map El.id (elements s) ++ map pretty (createdBy a).
Proof.
  destruct a as [op|id|c]; simpl.
  - destruct op as [t now e|e| |e id|e|]; simpl;
      rewrite ?app_nil_r; try reflexivity.
    + unfold handleMouseDown.
      destruct (target_is_canvas e); simpl; [|by rewrite app_nil_r].
      rewrite map_app. by destruct t.
    + unfold handleMouseMove. destruct (drawing s); simpl; [|done].
      by apply moveLast_map.
    + unfold handleDragStart. by destruct (find _ _).
    + apply handleDragMove_map, dragElement_id.
  - rewrite app_nil_r, map_map. by apply map_ext.
  - rewrite app_nil_r, map_map. apply map_ext. intros el.
    by destruct (El.selected el), c.
Qed.

Lemma performAll_ids rect acts : forall s,
  map El.id (elements (performAll rect s acts))
    = map El.id (elements s) ++ map pretty (created acts).
Proof.
  induction acts as [|a acts IH]; intros s; simpl.
  - by rewrite app_nil_r.
  - unfold performAll in *. simpl. rewrite IH, perform_ids.
    by rewrite map_app, app_assoc.
Qed.

(** X12. Nothing in a session deletes or reorders shapes: after any
    sequence of draw, drag, select and appearance actions the identifiers
    of the collection are those it had, in the same order, followed by
    one identifier, the decimal text of [Date.now()], for each
    pointer-down that reached the canvas. *)
Theorem session_appends_only (rect : DOMRect) (s : AppState)
    (acts : list Action) :
  map El.id (elements (performAll rect s acts))
    = map El.id (elements s) ++ map pretty (created acts).
Proof. apply performAll_ids. Qed.

Lemma count_selected_ext (l1 : list DrawingElement) : forall l2,
  map El.selected l1 = map El.selected l2 ->
  count_selected l1 = count_selected l2.
Proof.
  unfold count_selected.
  induction l1 as [|a l1 IH]; intros [|b l2] Heq; try done.
  cbn [map] in Heq. injection Heq as Hab Heq.
  rewrite !filter_cons, Hab.
  destruct (decide (El.selected b = true)); simpl; by rewrite (IH l2).
Qed.

Lemma count_selected_snoc_false els el :
  El.selected el = false ->
  count_selected (els ++ [el]) = count_selected els.
Proof.
  intros Hsel. unfold count_selected.
  rewrite filter_app, length_app, filter_cons.
  rewrite decide_False by (by rewrite Hsel). simpl. lia.
Qed.

Lemma count_selected_perform rect s a :
  (forall id, a <> selectAt id) ->
  count_selected (elements (perform rect s a)) = count_selected (elements s).
Proof.
  intros Hnot. destruct a as [op|id|c]; simpl.
  - destruct op as [t now e|e| |e id|e|]; simpl; try reflexivity.
    + unfold handleMouseDown. destruct (target_is_canvas e); simpl; [|done].
      apply count_selected_snoc_false. by destruct t.
    + unfold handleMouseMove. destruct (drawing s); simpl; [|done].
      by apply count_selected_ext, moveLast_map.
    + unfold handleDragStart. by destruct (find _ _).
    + apply count_selected_ext, handleDragMove_map, dragElement_selected.
  - by destruct (Hnot id).
  - apply count_selected_ext. rewrite map_map. apply map_ext. intros el.
    by destruct (El.selected el) eqn:Hsel, c; simpl.
Qed.

Lemma count_named_le1 id (els : list DrawingElement) :
  NoDup (map El.id els) -> (count_named id els <= 1)%nat.
Proof.
  intros Hnd. destruct (decide (id ∈ map El.id els)) as [Hin|Hnot].
  - rewrite count_named_NoDup; [lia|done|]. by apply list_elem_of_In.
  - rewrite count_named_notin; [lia|]. by rewrite <- list_elem_of_In.
Qed.

Lemma created_snoc acts a : created (acts ++ [a]) = created acts ++ createdBy a.
Proof. unfold created. by rewrite flat_map_app; simpl; rewrite app_nil_r. Qed.

Lemma session_ids_NoDup rect acts :
  NoDup (created acts) ->
  NoDup (map El.id (elements (performAll rect initialState acts))).
Proof.
  intros Hnd. rewrite performAll_ids. simpl.
  apply (NoDup_fmap_2 pretty). exact Hnd.
Qed.

Lemma session_selected_le1 rect acts :
  NoDup (created acts) ->
  (count_selected (elements (performAll rect initialState acts)) <= 1)%nat.
Proof.
  induction acts as [|a acts IH] using rev_ind; intros Hnd.
  - simpl. unfold count_selected. simpl. lia.
  - rewrite created_snoc in Hnd. apply NoDup_app in Hnd as (Hnd & _ & _).
    unfold performAll in *. rewrite fold_left_app. simpl.
    destruct a as [op|id|c].
    + rewrite count_selected_perform by done. by apply IH.
    + cbn [perform]. rewrite count_selected_handleSelect.
      apply count_named_le1. by apply (session_ids_NoDup rect acts).
    + rewrite count_selected_perform by done. by apply IH.
Qed.

(** X13. Selection exclusivity over whole sessions: when no two
    pointer-downs on the canvas read the same [Date.now()], after any
    sequence of draw, drag, select and appearance actions from the empty
    drawing the identifiers of the shapes are pairwise distinct and at
    most one shape is selected. *)
Theorem session_selects_at_most_one (rect : DOMRect) (acts : list Action) :
  NoDup (created acts) ->
  NoDup (map El.id (elements (performAll rect initialState acts))) /\
  (count_selected (elements (performAll rect initialState acts)) <= 1)%nat.
Proof.
  intros Hnd. split.
  - by apply session_ids_NoDup.
  - by apply session_selected_le1.
Qed.

(** X14. The bounds invariant also holds from any drawing that is within
    the canvas and across selection and appearance changes: after any
    sequence of actions whose start pointers lie on the canvas, every
    shape is within the canvas. *)
Theorem session_stays_within (rect : DOMRect) (s : AppState)
    (acts : list Action) :
  all_within s -> Forall (action_ok rect) acts ->
  all_within (performAll rect s acts).
Proof.
  revert s. induction acts as [|a acts IH]; intros s Hs Hok; [done|].
  apply Forall_cons in Hok as [Ha Hok].
  unfold performAll in *. simpl. apply IH; [|done].
  destruct a as [op|id|c]; simpl.
  - by apply step_within.
  - unfold all_within, handleSelect. simpl. apply Forall_fmap.
    eapply Forall_impl; [exact Hs|]. intros el Hel. exact Hel.
  - unfold all_within, handleAppearanceChange. simpl. apply Forall_fmap.
    eapply Forall_impl; [exact Hs|]. intros el Hel. simpl.
    destruct (El.selected el); [|done].
    unfold within_canvas. by rewrite footprint_El_with.
Qed.

Lemma session_selects_at_most_one_witness :
  NoDup (created session_sample) /\
  map El.selected (elements (performAll rect0 initialState session_sample))
    = [false; true] /\
  (count_selected (elements (performAll rect0 initialState session_sample))
     <= 1)%nat.
Proof.
  assert (Hnd : NoDup (created session_sample)).
  { apply (bool_decide_unpack _). by vm_compute. }
  split; [exact Hnd|]. split; [reflexivity|].
  exact (proj2 (session_selects_at_most_one rect0 session_sample Hnd)).
Defined.

Lemma session_stays_within_witness :
  all_within gallery_sample /\
  all_within (performAll rect0 gallery_sample session_sample).
Proof.
  assert (Hs : all_within gallery_sample).
  { unfold all_within. apply (bool_decide_unpack _). by vm_compute. }
  split; [exact Hs|].
  apply (session_stays_within rect0 gallery_sample session_sample Hs).
  unfold session_sample, action_ok, op_ok, pointer_on_canvas,
    CANVAS_WIDTH, CANVAS_HEIGHT.
  repeat constructor; simpl; lia.
Defined.

(** ** Releasing the pointer *)



(** ** Storage *)

Lemma handleLoad_handleSave `{JSONTextLaws Blob} (s s1 : AppState)
    (localStorage : gmap string Blob) :
  handleLoad (handleSave s localStorage) s1
    = Loaded (set_elements s1 (elements s)).
Proof.
  unfold handleLoad, handleSave.
  rewrite lookup_insert_eq, stringify_nonempty, parse_stringify.
  by rewrite typedElements_elementsToJSON.
Qed.

(** X17. The latest save is the one a load finds, and a save writes the
    [drawing] key only: after saving one drawing and then another, a load
    installs the second, and every other key of the storage keeps its
    value. *)
Theorem latest_save_wins `{JSONTextLaws Blob} (s1 s2 s0 : AppState)
    (localStorage : gmap string Blob) :
  handleSave s2 (handleSave s1 localStorage) = handleSave s2 localStorage /\
  handleLoad (handleSave s2 (handleSave s1 localStorage)) s0
    = Loaded (set_elements s0 (elements s2)) /\
  (forall key, key <> "drawing" ->
     handleSave s1 localStorage !! key = localStorage !! key).
Proof.
  split; [|split].
  - unfold handleSave. apply insert_insert_eq.
  - apply handleLoad_handleSave.
  - intros key Hkey. unfold handleSave. by apply lookup_insert_ne.
Qed.

Lemma latest_save_wins_witness :
  @handleLoad json treeText
     (@handleSave json treeText gallery_sample
        (@handleSave json treeText pair_sample ∅)) initialState
    = Loaded (set_elements initialState (elements gallery_sample)).
Proof.
  exact (proj1 (proj2 (@latest_save_wins json treeText
                         (Build_JSONTextLaws json treeText
                            (fun j => eq_refl) (fun j => eq_refl))
                         pair_sample gallery_sample initialState ∅))).
Defined.

(** ** Rendering *)

Lemma findIndexFrom_NoDup (els : list DrawingElement) :
  forall (k : Z) (i : nat) (el : DrawingElement),
  NoDup (map El.id els) -> els !! i = Some el ->
  findIndexFrom (fun e => String.eqb (El.id e) (El.id el)) k els
    = k + Z.of_nat i.
Proof.
  induction els as [|a els IH]; intros k i el Hnd Hi; [done|].
  cbn [map] in Hnd. apply NoDup_cons in Hnd as [Hfresh Hnd].
  destruct i as [|i]; simpl in *.
  - injection Hi as ->. rewrite String.eqb_refl. lia.
  - destruct (String.eqb_spec (El.id a) (El.id el)) as [Heq|_].
    + destruct Hfresh. rewrite Heq. apply list_elem_of_fmap.
      exists el. split; [done|]. by apply (list_elem_of_lookup_2 _ i).
    + rewrite (IH (k + 1) i el Hnd Hi). lia.
Qed.

(** X18. Stacking follows the order of the collection: when the
    identifiers are pairwise distinct, the shape at position [i]
    (counting from 0) is rendered with [zIndex] [i + 1], so a shape
    lies above all the shapes created before it. *)
Theorem stacking_follows_order (els : list DrawingElement) (i : nat)
    (el : DrawingElement) :
  NoDup (map El.id els) -> els !! i = Some el ->
  zIndex els el = Z.of_nat i + 1.
Proof.
  intros Hnd Hi. unfold zIndex, findIndex.
  rewrite (findIndexFrom_NoDup els 0 i el Hnd Hi). lia.
Qed.

Lemma stacking_follows_order_witness :
  map (zIndex (elements gallery_sample)) (elements gallery_sample)
    = [1; 2; 3] /\
  zIndex (elements gallery_sample)
    (El.mk "3" line 790 10 0 0 "#000000" "#ffffff" solid 2 true
           (Some 800) (Some 10)) = Z.of_nat 2 + 1.
Proof.
  split; [reflexivity|].
  apply stacking_follows_order; [|reflexivity].
  apply (bool_decide_unpack _). by vm_compute.
Defined.

(** ** Gestures: from DOM events to operations *)

Lemma set_currentShape_same s : set_currentShape s (currentShape s) = s.
Proof. by destruct s. Qed.

(** X20. A press on the canvas, a move and a release on the canvas are
    [start], [update] and [commit]: once the press has reached the
    canvas the move and the release go to the draw handlers, whatever
    drag was recorded. *)
Theorem draw_gesture (rect : DOMRect) (now : N) (e1 e2 : MouseEvent)
    (s : AppState) :
  target_is_canvas e1 = true ->
  canvasMouseUp (canvasMouseMove rect e2 (handleMouseDown rect now e1 s))
    = run rect s [start (currentShape s) now e1; update e2; commit].
Proof.
  intros Ht. unfold run. simpl. rewrite set_currentShape_same.
  unfold canvasMouseUp, canvasMouseMove, canvasUpHandler, canvasMoveHandler.
  assert (Hd : drawing (handleMouseDown rect now e1 s) = true).
  { unfold handleMouseDown. by rewrite Ht. }
  rewrite Hd.
  assert (Hd' : drawing (handleMouseMove rect e2
                           (handleMouseDown rect now e1 s)) = true).
  { unfold handleMouseMove. by rewrite Hd. }
  by rewrite Hd'.
Qed.

Lemma draw_gesture_witness :
  map (fun el => (El.x el, El.y el, El.width el, El.height el))
      (elements (canvasMouseUp
                   (canvasMouseMove rect0 (onCanvas 50 50)
                      (handleMouseDown rect0 1 (onCanvas 100 100)
                         initialState))))
    = [(100, 100, -50, -50)].
Proof.
  rewrite (draw_gesture rect0 1 (onCanvas 100 100) (onCanvas 50 50)
             initialState eq_refl).
  reflexivity.
Defined.

Lemma handleDragStart_known e id s :
  id ∈ map El.id (elements s) ->
  handleDragStart e id s
    = set_offset (set_dragId s (Some id)) (offsetX e, offsetY e).
Proof.
  intros Hin. apply list_elem_of_In in Hin. unfold handleDragStart.
  by destruct (find_named_Some id (elements s) Hin) as [el ->].
Qed.



Lemma shapeMouseUp_ends s :
  drawing (shapeMouseUp s) = false /\ dragId (shapeMouseUp s) = None /\
  elements (shapeMouseUp s) = elements s.
Proof.
  unfold shapeMouseUp, canvasUpHandler.
  destruct (drawing s) eqn:Hd, (falsy (dragId s)); simpl; by rewrite ?Hd.
Qed.

(** X22. A click on a shape, that is a press, a release and a click with
    the shape as target, selects by its identifier, adds no shape and
    leaves neither a Draw Session nor a drag active. *)
Theorem click_gesture (rect : DOMRect) (now : N) (e : MouseEvent)
    (id : string) (s : AppState) :
  target_is_canvas e = false ->
  let s' := handleSelect id (shapeMouseUp (shapeMouseDown rect now e id s)) in
  elements s' = elements (handleSelect id s) /\
  drawing s' = false /\ dragId s' = None.
Proof.
  intros Ht s'. subst s'.
  assert (Hp : elements (shapeMouseDown rect now e id s) = elements s).
  { unfold shapeMouseDown, handleMouseDown, handleDragStart. rewrite Ht.
    simpl. by destruct (find _ _). }
  destruct (shapeMouseUp_ends (shapeMouseDown rect now e id s))
    as (Hd & Hid & Hels).
  unfold handleSelect at 1 2 3. simpl. by rewrite Hels, Hp.
Qed.

Lemma click_gesture_witness :
  map El.selected
      (elements (handleSelect "2"
                   (shapeMouseUp
                      (shapeMouseDown rect0 9 (onShape 300 300 0 0) "2"
                         pair_sample))))
    = [false; true].
Proof.
  rewrite (proj1 (click_gesture rect0 9 (onShape 300 300 0 0) "2"
                    pair_sample eq_refl)).
  reflexivity.
Defined.

(** ** Identifiers are never empty *)

Lemma pretty_N_go_nonempty (x : N) : forall s, s <> "" -> pretty_N_go x s <> "".
Proof.
  induction (N.lt_wf_0 x) as [x _ IH]. intros s Hs.
  destruct (decide (x = 0)%N) as [->|Hx].
  - by rewrite pretty_N_go_0.
  - rewrite pretty_N_go_step by lia.
    apply IH; [|done]. apply N.div_lt; lia.
Qed.

Lemma pretty_N_nonempty (n : N) : pretty n <> "".
Proof.
  unfold pretty, pretty_N. destruct (decide (n = 0)%N) as [->|Hn]; [done|].
  rewrite pretty_N_go_step by lia. by apply pretty_N_go_nonempty.
Qed.

(** X23. In a session from the empty drawing no shape has the empty text
    as identifier, so the drag recorded by a press on a shape of the
    collection is never the falsy one that [dragTo] ignores. *)
Theorem session_ids_nonempty (rect : DOMRect) (acts : list Action)
    (e : MouseEvent) (id : string) :
  let s := performAll rect initialState acts in
  Forall (fun el => El.id el <> "") (elements s) /\
  (id ∈ map El.id (elements s) ->
   falsy (dragId (handleDragStart e id s)) = false).
Proof.
  intros s.
  assert (Hids : Forall (fun i => i <> "") (map El.id (elements s))).
  { subst s. rewrite performAll_ids. simpl. apply Forall_fmap.
    apply Forall_true. intros n. apply pretty_N_nonempty. }
  rewrite Forall_forall in Hids. split.
  - apply Forall_forall. intros el Hel. apply Hids.
    apply list_elem_of_fmap. by exists el.
  - intros Hin. rewrite (handleDragStart_known e id s Hin). simpl.
    apply String.eqb_neq. by apply Hids.
Qed.

Lemma session_ids_nonempty_witness :
  let s := performAll rect0 initialState session_sample in
  map El.id (elements s) = ["1"; "2"] /\
  falsy (dragId (handleDragStart (onShape 100 100 0 0) "1" s)) = false.
Proof.
  intros s. split; [by vm_compute|].
  apply (proj2 (session_ids_nonempty rect0 session_sample
                  (onShape 100 100 0 0) "1")).
  change ("1" ∈ map El.id (elements s)).
  replace (map El.id (elements s)) with ["1"; "2"] by (by vm_compute).
  apply list_elem_of_here.
Defined.
